(** * The CLI engine of the linter (lib/cli-engine.js)

    A shallow embedding of [isExcluded], [processFile], the [CLIEngine]
    constructor and [executeOnFiles], together with the properties of the
    orchestration pipeline: exclusion reporting, extension filtering,
    missing files, the reset/verify discipline and construction failures.

    The engine talks to collaborators that live outside this file
    (the glob matcher, the path and file-system modules, the rule registry,
    the verification engine, the configuration helper and the tree walker).
    They are gathered in the [Platform] class; every definition and theorem
    is parametric in it. *)

From Stdlib Require Import String Ascii List Bool ZArith Lia.
Import ListNotations.
Open Scope string_scope.

Set Implicit Arguments.

(** ** Outcomes and the engine monad *)

(** A JavaScript call either returns a value or throws. *)
Inductive Result (Err A : Type) : Type :=
| Ok (a : A)
| Throw (e : Err).

Arguments Ok {Err A} a.
Arguments Throw {Err A} e.

(** Effectful code is a function of the world [W]; the world that a call
    leaves behind is kept also when the call throws. *)
Definition M (W Err A : Type) : Type := W -> Result Err A * W.

Definition ret {W Err A} (a : A) : M W Err A := fun w => (Ok a, w).

Definition throw {W Err A} (e : Err) : M W Err A := fun w => (Throw e, w).

Definition bind {W Err A B} (m : M W Err A) (k : A -> M W Err B) : M W Err B :=
  fun w =>
    match m w with
    | (Ok a, w') => k a w'
    | (Throw e, w') => (Throw e, w')
    end.

Definition lift {W Err A} (r : Result Err A) : M W Err A := fun w => (r, w).

Declare Scope engine_scope.
Delimit Scope engine_scope with engine.

Notation "x <- m ;; k" := (bind m (fun x => k))
  (at level 100, m at next level, right associativity) : engine_scope.
Notation "' p <- m ;; k" := (bind m (fun x => match x with p => k end))
  (at level 100, p pattern, m at next level, right associativity) : engine_scope.
Notation "m ;;; k" := (bind m (fun _ => k))
  (at level 100, right associativity) : engine_scope.

Open Scope engine_scope.

(** ** Array helpers *)

(** [Array.prototype.some] with an effectful callback: elements are visited
    in order and the scan stops at the first one for which the callback
    answers true. *)
Fixpoint some {W Err A} (f : A -> M W Err bool) (l : list A) : M W Err bool :=
  match l with
  | [] => ret false
  | x :: xs => b <- f x ;; if b then ret true else some f xs
  end.

(** [Array.prototype.forEach]. *)
Fixpoint forEach {W Err A} (f : A -> M W Err unit) (l : list A) : M W Err unit :=
  match l with
  | [] => ret tt
  | x :: xs => f x ;;; forEach f xs
  end.

(** A loop that threads a local state through one callback per element. *)
Fixpoint foldM {W Err A St} (f : St -> A -> M W Err St) (l : list A) (st : St)
  : M W Err St :=
  match l with
  | [] => ret st
  | x :: xs => st' <- f st x ;; foldM f xs st'
  end.

(** [Array.prototype.indexOf] on an array of strings (strict equality):
    the index of the first occurrence, [-1] when there is none. *)
Fixpoint indexOf (l : list string) (x : string) : Z :=
  match l with
  | [] => (-1)%Z
  | y :: ys =>
      if String.eqb y x then 0%Z
      else let i := indexOf ys x in
           if (i <? 0)%Z then (-1)%Z else (i + 1)%Z
  end.

(** ** Strings *)

Definition backslash : string := String (ascii_of_nat 92) EmptyString.

Fixpoint drop (n : nat) (s : string) : string :=
  match n, s with
  | O, _ => s
  | S n', String _ s' => drop n' s'
  | S _, EmptyString => EmptyString
  end.

(** [pat] is the beginning of [s]. *)
Fixpoint startsWith (pat s : string) : bool :=
  match pat with
  | EmptyString => true
  | String a pat' =>
      match s with
      | EmptyString => false
      | String b s' => Ascii.eqb a b && startsWith pat' s'
      end
  end.

(** [String.prototype.replace] with a string pattern: only the FIRST
    occurrence of [pat] is replaced.  (The replacement used by the engine
    holds no [$] sequence, so it is inserted as it is.) *)
Fixpoint replace (pat rep s : string) : string :=
  if startsWith pat s then rep ++ drop (String.length pat) s
  else match s with
       | EmptyString => s
       | String c s' => String c (replace pat rep s')
       end.

Definition string_of_bool (b : bool) : string := if b then "true" else "false".

(** ** Data model *)

(** The options to configure a CLI engine with (typedef [CLIEngineOptions]),
    after the defaults have been merged in. *)
Record CLIEngineOptions (RuleSetting : Type) : Type := {
  configFile : option string;
  reset : bool;
  ignore : bool;
  rulePaths : list string;
  useEslintrc : bool;
  envs : list string;
  globals : list string;
  rules : list (string * RuleSetting);
  ignorePath : option string
}.

(** The object a caller hands to the constructor: any property may be
    missing. *)
Record SuppliedOptions (RuleSetting : Type) : Type := {
  given_configFile : option string;
  given_reset : option bool;
  given_ignore : option bool;
  given_rulePaths : option (list string);
  given_useEslintrc : option bool;
  given_envs : option (list string);
  given_globals : option (list string);
  given_rules : option (list (string * RuleSetting));
  given_ignorePath : option string
}.

(** A linting warning or error.  [detail] stands for the location and rule
    fields that the verification engine attaches; the messages built by the
    CLI engine itself carry none. *)
Record LintMessage (Detail : Type) : Type := {
  fatal : bool;
  message : string;
  detail : option Detail
}.

(** A linting result. *)
Record LintResult (Detail : Type) : Type := {
  filePath : string;
  messages : list (LintMessage Detail)
}.

(** What [executeOnFiles] returns. *)
Record RunReport (Detail : Type) : Type := {
  results : list (LintResult Detail)
}.

Arguments fatal {Detail} _.
Arguments message {Detail} _.
Arguments detail {Detail} _.
Arguments filePath {Detail} _.
Arguments messages {Detail} _.
Arguments results {Detail} _.

(** ** Collaborators *)

Class Platform : Type := {
  (** thrown values *)
  Err : Type;
  (** the effective configuration of one file *)
  Config : Type;
  (** location fields of an engine message *)
  Detail : Type;
  (** the value of one entry of the [rules] option *)
  RuleSetting : Type;
  (** process-wide state of the linter: the rule registry and whatever the
      verification engine carries over from one file to the next *)
  Linter : Type;
  (** the state of one configuration helper ([new Config(options)]) *)
  Helper : Type;

  (** [path.extname] and [path.resolve] *)
  extname : string -> string;
  resolve : string -> string;
  (** [fs.existsSync] and [fs.readFileSync(_, "utf8")] on the file system
      as it is during the run *)
  existsSync : string -> bool;
  readFileSync : string -> Result Err string;
  (** [minimatch(name, pattern)] *)
  minimatch : string -> string -> Result Err bool;
  (** [rules.load(rulesdir)] *)
  rules_load : string -> Linter -> Result Err unit * Linter;
  (** [eslint.reset()] and [eslint.verify(text, config, filename)] *)
  eslint_reset : Linter -> Linter;
  eslint_verify :
    Linter -> string -> Config -> string ->
    Result Err (list (LintMessage Detail)) * Linter;
  (** [new Config(options)], [configHelper.getConfig(filePath)] and
      [configHelper.getExclusions()] *)
  Config_new : CLIEngineOptions RuleSetting -> Result Err Helper;
  getConfig : Helper -> string -> Result Err (Config * Helper);
  getExclusions : Helper -> Result Err (list string * Helper);
  (** [traverse({files: files}, callback)]: the file names the callback is
      invoked with, in order, and the error the walk ends with, if any *)
  traverse : list string -> list string * option Err
}.

(** One call to the verification engine, as observed from outside. *)
Inductive EngineCall {P : Platform} : Type :=
| CReset (after : Linter)
| CVerify (before : Linter) (filename : string).

(** The world the engine runs in: the linter's process-wide state, the
    history of calls made to the verification engine, and the lines handed
    to [debug]. *)
Record World {P : Platform} : Type := {
  linter : Linter;
  calls : list EngineCall;
  dbg : list string
}.

Section Engine.

Context {P : Platform}.

Definition Eff (A : Type) : Type := M World Err A.

(** *** Primitive effects *)

Definition debug (line : string) : Eff unit :=
  fun w => (Ok tt, {| linter := linter w; calls := calls w;
                      dbg := (dbg w ++ [line])%list |}).

Definition reset_call : Eff unit :=
  fun w =>
    let s := eslint_reset (linter w) in
    (Ok tt, {| linter := s; calls := (calls w ++ [CReset s])%list; dbg := dbg w |}).

Definition verify_call (text : string) (config : Config) (filename : string)
  : Eff (list (LintMessage Detail)) :=
  fun w =>
    let '(r, s) := eslint_verify (linter w) text config filename in
    (r, {| linter := s; calls := (calls w ++ [CVerify (linter w) filename])%list;
           dbg := dbg w |}).

Definition load_call (rulesdir : string) : Eff unit :=
  fun w =>
    let '(r, s) := rules_load rulesdir (linter w) in
    (r, {| linter := s; calls := calls w; dbg := dbg w |}).

(** *** Helpers *)

(** Determines if a file or directory should be excluded from traversal. *)
Definition isExcluded (name : string) (exclude : list string) : Eff bool :=
  let name := replace backslash "/" name in
  some (fun exclusion =>
          result <- lift (minimatch name exclusion) ;;
          debug ("Minimatch " ++ string_of_bool result) ;;;
          ret result)
       exclude.

(** The result reported for a path at which there is no file. *)
Definition notFound (filename : string) : LintResult Detail :=
  {| filePath := filename;
     messages :=
       [ {| fatal := true;
            message := "Could not find file at '" ++ resolve filename ++ "'.";
            detail := None |} ] |}.

(** Processes an individual file. *)
Definition processFile (filename : string) (configHelper : Helper)
  : Eff (LintResult Detail * Helper) :=
  (* clear all existing settings for a new file *)
  reset_call ;;;
  let filePath := resolve filename in
  if existsSync filePath then
    debug ("Linting " ++ filePath) ;;;
    '(config, configHelper') <- lift (getConfig configHelper filePath) ;;
    text <- lift (readFileSync (resolve filename)) ;;
    messages <- verify_call text config filename ;;
    ret ({| filePath := filename; messages := messages |}, configHelper')
  else
    debug ("Couldn't find " ++ filePath) ;;;
    ret (notFound filename, configHelper).

(** *** Options *)

Definition defaultOptions : CLIEngineOptions RuleSetting :=
  {| configFile := None;
     reset := false;
     rulePaths := [];
     useEslintrc := true;
     envs := [];
     globals := [];
     rules := [];
     ignore := true;
     ignorePath := None |}.

Definition or_default {A} (given : option A) (default : A) : A :=
  match given with Some a => a | None => default end.

(** [assign(Object.create(defaultOptions), options || {})]: a property the
    caller supplied shadows the default of the same name. *)
Definition assign (defaults : CLIEngineOptions RuleSetting)
  (options : option (SuppliedOptions RuleSetting))
  : CLIEngineOptions RuleSetting :=
  match options with
  | None => defaults
  | Some o =>
      {| configFile :=
           match given_configFile o with
           | Some f => Some f
           | None => configFile defaults
           end;
         reset := or_default (given_reset o) (reset defaults);
         rulePaths := or_default (given_rulePaths o) (rulePaths defaults);
         useEslintrc := or_default (given_useEslintrc o) (useEslintrc defaults);
         envs := or_default (given_envs o) (envs defaults);
         globals := or_default (given_globals o) (globals defaults);
         rules := or_default (given_rules o) (rules defaults);
         ignore := or_default (given_ignore o) (ignore defaults);
         ignorePath :=
           match given_ignorePath o with
           | Some f => Some f
           | None => ignorePath defaults
           end |}
  end.

(** *** Public interface *)

(** An instance of the core CLI engine. *)
Record Engine : Type := {
  options : CLIEngineOptions RuleSetting
}.

(** The constructor.  An array is truthy even when empty, so the guard on
    [this.options.rulePaths] always lets the loop run. *)
Definition CLIEngine (opts : option (SuppliedOptions RuleSetting)) : Eff Engine :=
  let this_options := assign defaultOptions opts in
  (* load in additional rules *)
  forEach (fun rulesdir =>
             debug ("Loading rules from " ++ rulesdir) ;;;
             load_call rulesdir)
          (rulePaths this_options) ;;;
  ret {| options := this_options |}.

(** The result pushed for a file that was named by the caller and is
    ignored. *)
Definition ignoredResult (filename : string) : LintResult Detail :=
  {| filePath := filename;
     messages :=
       [ {| fatal := false;
            message := "File ignored because of your .eslintignore file. Use --no-ignore to override.";
            detail := None |} ] |}.

(** The function [executeOnFiles] hands to [traverse].  The local state is
    the [results] array and the configuration helper of the run. *)
Definition callback (this : Engine) (files exclusions : list string)
  (st : list (LintResult Detail) * Helper) (filename : string)
  : Eff (list (LintResult Detail) * Helper) :=
  let '(results, configHelper) := st in
  debug ("Processing " ++ filename) ;;;
  if String.eqb (extname filename) ".js" then
    proceed <- (if negb (ignore (options this)) then ret true
                else excluded <- isExcluded filename exclusions ;;
                     ret (negb excluded)) ;;
    if proceed then
      '(result, configHelper') <- processFile filename configHelper ;;
      ret ((results ++ [result])%list, configHelper')
    else if (-1 <? indexOf files filename)%Z then
      debug ("Ignoring " ++ filename) ;;;
      (* only warn for files explicitly passed on the command line *)
      ret ((results ++ [ignoredResult filename])%list, configHelper)
    else ret (results, configHelper)
  else ret (results, configHelper).

(** [traverse({files: files}, callback)]. *)
Definition traverse_call {St} (files : list string)
  (f : St -> string -> Eff St) (st : St) : Eff St :=
  let '(visited, failure) := traverse files in
  st' <- foldM f visited st ;;
  match failure with
  | None => ret st'
  | Some e => throw e
  end.

Definition executeOnFiles (this : Engine) (files : list string)
  : Eff (RunReport Detail) :=
  configHelper <- lift (Config_new (options this)) ;;
  '(exclusions, configHelper) <- lift (getExclusions configHelper) ;;
  '(results, _) <- traverse_call files (callback this files exclusions)
                                 ([], configHelper) ;;
  ret {| results := results |}.

End Engine.

(** ** A sample platform

    A small concrete world on which the engine can be run.  Its
    collaborators are stand-ins that are easy to read, not models of the
    real ones: a working directory [/work] that holds
    [a.js], [b.js], [x.JS], [notes.txt] and a directory [vendor] with
    [c.js] in it; an ignore file listing [vendor/*] and [notes.txt]; a
    glob matcher that knows [*], [?] and bracket classes, takes an
    unclosed bracket for itself and rejects a class whose range is out of
    order; a walker that skips the paths at which it finds nothing; a
    linter that counts the files verified since the last reset. *)
Module Sample.

Definition slash : ascii := ascii_of_nat 47.
Definition dot : ascii := ascii_of_nat 46.
Definition star : ascii := ascii_of_nat 42.
Definition bracket : ascii := ascii_of_nat 91.
Definition closing : ascii := ascii_of_nat 93.
Definition question : ascii := ascii_of_nat 63.
Definition dash : ascii := ascii_of_nat 45.
Definition bang : ascii := ascii_of_nat 33.
Definition caret : ascii := ascii_of_nat 94.

(** The last segment of a path. *)
Fixpoint basename (s : string) : string :=
  match s with
  | EmptyString => EmptyString
  | String c s' =>
      let rest := basename s' in
      if Ascii.eqb c slash then rest
      else if existsb (Ascii.eqb slash) (list_ascii_of_string s') then rest
      else s
  end.

(** From the last dot of [s] to its end; empty when [s] has no dot. *)
Fixpoint from_last_dot (s : string) : string :=
  match s with
  | EmptyString => EmptyString
  | String c s' =>
      if existsb (Ascii.eqb dot) (list_ascii_of_string s') then from_last_dot s'
      else if Ascii.eqb c dot then s else EmptyString
  end.

(** The extension of a path: from the last dot of its last segment, a
    leading dot of the segment not counting. *)
Definition extname (p : string) : string :=
  match basename p with
  | EmptyString => EmptyString
  | String _ s' => from_last_dot s'
  end.

Definition resolve (p : string) : string :=
  if startsWith "/" p then p else "/work/" ++ p.

Definition existing : list string :=
  ["/work/a.js"; "/work/b.js"; "/work/x.JS"; "/work/notes.txt";
   "/work/vendor/c.js"].

Definition existsSync (p : string) : bool :=
  existsb (String.eqb p) existing.

Definition readFileSync (p : string) : Result string string :=
  if existsSync p then Ok ("// " ++ p) else Throw ("ENOENT " ++ p).

(** The pieces of a glob pattern. *)
Inductive glob : Type :=
| Star
| AnyOne
| Lit (c : ascii)
| Class (negated : bool) (ranges : list (ascii * ascii)).

(** The ranges of a bracket class: [a-z] is a range, a character that
    stands alone is the range from itself to itself. *)
Fixpoint ranges_of (body : list ascii) : list (ascii * ascii) :=
  match body with
  | [] => []
  | lo :: rest =>
      match rest with
      | d :: hi :: rest' =>
          if Ascii.eqb d dash then (lo, hi) :: ranges_of rest'
          else (lo, lo) :: ranges_of rest
      | _ => (lo, lo) :: ranges_of rest
      end
  end.

Definition class_of (body : list ascii) : glob :=
  match body with
  | c :: rest =>
      if Ascii.eqb c bang || Ascii.eqb c caret
      then Class true (ranges_of rest)
      else Class false (ranges_of body)
  | [] => Class false []
  end.

(** Reading a pattern.  A bracket opens a class only when a closing
    bracket follows; [body] holds the characters of the class being read,
    last one first. *)
Fixpoint parse (s : list ascii) (body : option (list ascii)) : list glob :=
  match s with
  | [] => []
  | c :: rest =>
      match body with
      | Some b =>
          if Ascii.eqb c closing then class_of (rev b) :: parse rest None
          else parse rest (Some (c :: b))
      | None =>
          if Ascii.eqb c star then Star :: parse rest None
          else if Ascii.eqb c question then AnyOne :: parse rest None
          else if Ascii.eqb c bracket && existsb (Ascii.eqb closing) rest
               then parse rest (Some [])
          else Lit c :: parse rest None
      end
  end.

Definition in_ranges (c : ascii) (ranges : list (ascii * ascii)) : bool :=
  existsb (fun r => Nat.leb (nat_of_ascii (fst r)) (nat_of_ascii c)
                    && Nat.leb (nat_of_ascii c) (nat_of_ascii (snd r)))
          ranges.

(** [*] stands for any run of characters other than the slash, [?] and a
    class for one such character, every other character for itself. *)
Fixpoint wild (pat : list glob) (name : list ascii) : bool :=
  match pat with
  | [] => match name with [] => true | _ => false end
  | Star :: pat' =>
      (fix skip (n : list ascii) : bool :=
         wild pat' n ||
         match n with
         | [] => false
         | d :: n' => negb (Ascii.eqb d slash) && skip n'
         end) name
  | AnyOne :: pat' =>
      match name with
      | [] => false
      | d :: name' => negb (Ascii.eqb d slash) && wild pat' name'
      end
  | Lit c :: pat' =>
      match name with
      | [] => false
      | d :: name' => Ascii.eqb c d && wild pat' name'
      end
  | Class negated ranges :: pat' =>
      match name with
      | [] => false
      | d :: name' =>
          negb (Ascii.eqb d slash) && xorb negated (in_ranges d ranges)
          && wild pat' name'
      end
  end.

(** A class such as [[z-a]], whose range runs backwards. *)
Definition out_of_order (pat : list glob) : bool :=
  existsb (fun g =>
             match g with
             | Class _ ranges =>
                 existsb (fun r => Nat.ltb (nat_of_ascii (snd r))
                                           (nat_of_ascii (fst r)))
                         ranges
             | _ => false
             end)
          pat.

Definition minimatch (name pattern : string) : Result string bool :=
  let pat := parse (list_ascii_of_string pattern) None in
  if out_of_order pat
  then Throw "Invalid regular expression: Range out of order in character class"
  else Ok (wild pat (list_ascii_of_string name)).

(** The registry of loaded rule directories and the number of files
    verified since the last reset. *)
Definition Linter : Type := list string * nat.

Definition rules_load (rulesdir : string) (s : Linter) : Result string unit * Linter :=
  if String.eqb rulesdir "rules" then (Ok tt, (fst s ++ [rulesdir], snd s)%list)
  else (Throw ("ENOENT " ++ rulesdir), s).

Definition eslint_reset (s : Linter) : Linter := (fst s, 0).

Definition eslint_verify (s : Linter) (text : string) (config : unit)
  (filename : string) : Result string (list (LintMessage nat)) * Linter :=
  (Ok (if String.eqb filename "b.js"
       then [ {| fatal := false; message := "Missing semicolon."; detail := Some (snd s) |};
              {| fatal := false; message := "Unexpected console."; detail := Some (snd s) |} ]
       else []),
   (fst s, S (snd s))).

Definition exclusions : list string := ["vendor/*"; "notes.txt"].

(** The directory [vendor] is walked, a file is handed over as it was
    named, and a path at which there is nothing is skipped. *)
Definition traverse (files : list string) : list string * option string :=
  (flat_map (fun f => if String.eqb f "vendor" then ["vendor/c.js"]
                      else if existsSync (resolve f) then [f]
                      else [])
            files,
   None).

#[export] Instance platform : Platform :=
  @Build_Platform string unit nat nat Linter nat
    extname resolve existsSync readFileSync minimatch
    rules_load eslint_reset eslint_verify
    (fun _ => Ok 0)
    (fun k _ => Ok (tt, S k))
    (fun k => Ok (exclusions, k))
    traverse.

(** The world before anything ran. *)
Definition w0 : World := {| linter := ([], 7); calls := []; dbg := [] |}.

(** An engine built with the default options. *)
Definition engine : Engine := {| options := defaultOptions |}.

(** An engine built with [ignore: false]. *)
Definition engine_no_ignore : Engine :=
  {| options :=
       assign defaultOptions
         (Some {| given_configFile := None; given_reset := None;
                  given_ignore := Some false; given_rulePaths := None;
                  given_useEslintrc := None; given_envs := None;
                  given_globals := None; given_rules := None;
                  given_ignorePath := None |}) |}.

(** The report that holds the clean file [a.js] and nothing else. *)
Definition report_a : RunReport nat :=
  {| results := [ {| filePath := "a.js"; messages := [] |} ] |}.

(** The report of a run on [a.js], [vendor/c.js] and [vendor]. *)
Definition report_c : RunReport nat :=
  {| results := [ {| filePath := "a.js"; messages := [] |};
                  ignoredResult "vendor/c.js";
                  ignoredResult "vendor/c.js" ] |}.

(** The sample platform with another way of reading files and other
    exclusion patterns. *)
Definition variant (read : string -> Result string string)
  (patterns : list string) : Platform :=
  @Build_Platform string unit nat nat Linter nat
    extname resolve existsSync read minimatch
    rules_load eslint_reset eslint_verify
    (fun _ => Ok 0)
    (fun k _ => Ok (tt, S k))
    (fun k => Ok (patterns, k))
    traverse.

(** [b.js] exists and cannot be read. *)
Definition unreadable (p : string) : Result string string :=
  if String.eqb p "/work/b.js" then Throw "EACCES /work/b.js"
  else readFileSync p.

Definition locked : Platform := variant unreadable exclusions.

(** No ignore file: the list of exclusion patterns is empty. *)
Definition bare : Platform := variant readFileSync [].

(** An options object that names three rule directories, the second of
    which does not exist. *)
Definition three_rule_dirs : SuppliedOptions nat :=
  {| given_configFile := None; given_reset := None;
     given_ignore := None;
     given_rulePaths := Some ["rules"; "missing"; "rules"];
     given_useEslintrc := None; given_envs := None;
     given_globals := None; given_rules := None;
     given_ignorePath := None |}.

End Sample.

(** ** Notions used by the properties *)

Section Notions.

Context {P : Platform}.

(** The world [w] after [lines] went to [debug]. *)
Definition logged (lines : list string) (w : World) : World :=
  {| linter := linter w; calls := calls w; dbg := (dbg w ++ lines)%list |}.

(** The path as it is handed to the matcher. *)
Definition normalized (name : string) : string := replace backslash "/" name.

(** What scanning the patterns in order comes to: the first pattern on
    which the matcher throws or answers true decides. *)
Fixpoint matchAny (name : string) (exclude : list string) : Result Err bool :=
  match exclude with
  | [] => Ok false
  | exclusion :: rest =>
      match minimatch name exclusion with
      | Ok true => Ok true
      | Ok false => matchAny name rest
      | Throw e => Throw e
      end
  end.

(** The lines the scan hands to [debug]. *)
Fixpoint matchLog (name : string) (exclude : list string) : list string :=
  match exclude with
  | [] => []
  | exclusion :: rest =>
      match minimatch name exclusion with
      | Ok true => ["Minimatch true"]
      | Ok false => "Minimatch false" :: matchLog name rest
      | Throw _ => []
      end
  end.

(** No pattern before position [length pre] matched: the matcher was asked
    about each of them and answered false. *)
Definition all_miss (name : string) (pre : list string) : Prop :=
  Forall (fun q => minimatch name q = Ok false) pre.

(** Every call to [verify] comes right after a call to [reset], and it is
    handed the state that this [reset] left. *)
Definition reset_before_verify (evs : list EngineCall) : Prop :=
  forall pre s filename post,
    evs = (pre ++ CVerify s filename :: post)%list ->
    exists pre', pre = (pre' ++ [CReset s])%list.

(** Histories made of one [reset], or one [reset] and the [verify] that
    follows it, per processed file. *)
Inductive per_file : list EngineCall -> Prop :=
| per_file_nil : per_file []
| per_file_reset evs s :
    per_file evs -> per_file (evs ++ [CReset s])
| per_file_verify evs s filename :
    per_file evs -> per_file (evs ++ [CReset s; CVerify s filename]).

(** Two worlds that the next [reset] makes alike. *)
Definition alike (w w' : World) : Prop :=
  eslint_reset (linter w) = eslint_reset (linter w').

(** [reset] forgets whatever a [verify] that started from a reset state
    left behind, and resetting twice is resetting once. *)
Definition reset_clears : Prop :=
  (forall s, eslint_reset (eslint_reset s) = eslint_reset s) /\
  (forall s text config filename,
      eslint_reset (snd (eslint_verify (eslint_reset s) text config filename))
      = eslint_reset s).

(** The traversal callback of a run that never consults the exclusion
    patterns: every path with the right extension goes to [processFile]. *)
Definition lintUnfiltered (st : list (LintResult Detail) * Helper)
  (filename : string) : Eff (list (LintResult Detail) * Helper) :=
  let '(results, configHelper) := st in
  debug ("Processing " ++ filename) ;;;
  if String.eqb (extname filename) ".js" then
    '(result, configHelper') <- processFile filename configHelper ;;
    ret ((results ++ [result])%list, configHelper')
  else ret (results, configHelper).

(** A run in which the exclusion patterns are fetched and then left
    unused. *)
Definition executeUnfiltered (this : Engine) (files : list string)
  : Eff (RunReport Detail) :=
  configHelper <- lift (Config_new (options this)) ;;
  '(_, configHelper) <- lift (getExclusions configHelper) ;;
  '(results, _) <- traverse_call files lintUnfiltered ([], configHelper) ;;
  ret {| results := results |}.

(** The results reported for the path [p]. *)
Definition results_for (p : string) (l : list (LintResult Detail))
  : list (LintResult Detail) :=
  filter (fun r => String.eqb (filePath r) p) l.

(** The calls to [verify] made for the file name [p]. *)
Definition verified (p : string) (evs : list EngineCall) : Prop :=
  exists s, In (CVerify s p) evs.

(** The text [part] occurs in [s]. *)
Definition contains (part s : string) : Prop :=
  exists before after, s = before ++ part ++ after.

(** The character [c] occurs in [s]. *)
Fixpoint mentions (c : ascii) (s : string) : bool :=
  match s with
  | EmptyString => false
  | String d s' => Ascii.eqb d c || mentions c s'
  end.

(** Loading the rule directories one after the other, up to the first
    failure. *)
Fixpoint loadAll (dirs : list string) (s : Linter) : Result Err unit * Linter :=
  match dirs with
  | [] => (Ok tt, s)
  | rulesdir :: rest =>
      match rules_load rulesdir s with
      | (Ok _, s') => loadAll rest s'
      | (Throw e, s') => (Throw e, s')
      end
  end.

(** [isExcluded] returns a boolean whatever the path and the patterns. *)
Definition isExcluded_total : Prop :=
  forall name exclude w, exists b, fst (isExcluded name exclude w) = Ok b.

(** Hand the path to [processFile] and push what it returns. *)
Definition pushProcessed (results : list (LintResult Detail)) (filename : string)
  (configHelper : Helper) : Eff (list (LintResult Detail) * Helper) :=
  '(result, configHelper') <- processFile filename configHelper ;;
  ret ((results ++ [result])%list, configHelper').

(** The world after [reset] was called in [w]. *)
Definition after_reset (w : World) : World :=
  {| linter := eslint_reset (linter w);
     calls := (calls w ++ [CReset (eslint_reset (linter w))])%list;
     dbg := dbg w |}.

Definition isJs (filename : string) : bool :=
  String.eqb (extname filename) ".js".

(** Every visit of a path named by the caller that the exclusion patterns
    match, with [ignore] on, pushes the ignored-file result. *)
Definition explicit_excluded_claim (this : Engine) (files exclusions : list string)
  (p : string) : Prop :=
  ignore (options this) = true ->
  In p files ->
  forall acc k w,
    fst (isExcluded p exclusions w) = Ok true ->
    fst (callback this files exclusions (acc, k) p w)
    = Ok ((acc ++ [ignoredResult p])%list, k).

(** A run on one [.js] path at which there is no file reports one result
    for it, with one fatal message that holds the resolved path. *)
Definition missing_file_claim (this : Engine) (p : string) : Prop :=
  existsSync (resolve p) = false ->
  extname p = ".js" ->
  forall w,
  exists r m,
    fst (executeOnFiles this [p] w) = Ok {| results := [r] |} /\
    filePath r = p /\
    messages r = [m] /\
    fatal m = true /\
    contains (resolve p) (message m).

(** The visit of [filename] hands it to [processFile]: it has the [.js]
    extension and is not held back by the exclusion patterns. *)
Definition processed (this : Engine) (exclusions : list string)
  (filename : string) : bool :=
  isJs filename &&
  (negb (ignore (options this)) ||
   match matchAny (normalized filename) exclusions with
   | Ok false => true
   | _ => false
   end).

(** The visit of [filename] pushes a result: the path is processed, or it
    is excluded and was named by the caller. *)
Definition reported (this : Engine) (files exclusions : list string)
  (filename : string) : bool :=
  isJs filename &&
  (negb (ignore (options this)) ||
   match matchAny (normalized filename) exclusions with
   | Ok false => true
   | Ok true => (-1 <? indexOf files filename)%Z
   | Throw _ => false
   end).

(** The file names handed to [verify], in the order of the calls. *)
Fixpoint verifiedNames (evs : list EngineCall) : list string :=
  match evs with
  | [] => []
  | CVerify _ filename :: rest => filename :: verifiedNames rest
  | CReset _ :: rest => verifiedNames rest
  end.

(** The number of calls to [reset]. *)
Fixpoint resetCount (evs : list EngineCall) : nat :=
  match evs with
  | [] => 0
  | CReset _ :: rest => S (resetCount rest)
  | CVerify _ _ :: rest => resetCount rest
  end.

End Notions.

(** * Properties *)

Ltac run_eff :=
  unfold bind, ret, throw, lift, debug, reset_call, verify_call, load_call;
  cbn [fst snd linter calls dbg].

Section Facts.

Context {P : Platform}.

(** ** Lists, strings and the debug stream *)

Lemma logged_nil (w : World) : logged [] w = w.
Proof.
  destruct w as [s c d]. unfold logged. cbn. now rewrite app_nil_r.
Qed.

Lemma logged_app (l1 l2 : list string) (w : World) :
  logged l2 (logged l1 w) = logged (l1 ++ l2) w.
Proof.
  unfold logged. cbn. now rewrite app_assoc.
Qed.

Lemma debug_run (line : string) (w : World) :
  debug line w = (Ok tt, logged [line] w).
Proof. reflexivity. Qed.

Lemma indexOf_lower (l : list string) (x : string) : (-1 <= indexOf l x)%Z.
Proof.
  induction l as [|y ys IH]; cbn; [lia|].
  destruct (String.eqb y x); [lia|].
  destruct (Z.ltb_spec (indexOf ys x) 0); lia.
Qed.

Lemma indexOf_In (l : list string) (x : string) :
  (-1 <? indexOf l x)%Z = true <-> In x l.
Proof.
  induction l as [|y ys IH]; cbn.
  - split; [discriminate | tauto].
  - destruct (String.eqb_spec y x) as [->|Hne].
    + split; [now left | reflexivity].
    + destruct (Z.ltb_spec (indexOf ys x) 0) as [Hlt|Hge].
      * split; [discriminate|].
        intros [Heq|Hin]; [contradiction|].
        apply IH in Hin. apply Z.ltb_lt in Hin. lia.
      * split.
        -- intros _. right. apply IH. apply Z.ltb_lt. lia.
        -- intros _. apply Z.ltb_lt. lia.
Qed.

Lemma indexOf_not_In (l : list string) (x : string) :
  (-1 <? indexOf l x)%Z = false <-> ~ In x l.
Proof.
  rewrite <- indexOf_In. destruct (-1 <? indexOf l x)%Z; split; congruence.
Qed.

Lemma replace_backslash_cons (c : ascii) (s : string) :
  replace backslash "/" (String c s) =
  if Ascii.eqb c (ascii_of_nat 92) then String "/" s
  else String c (replace backslash "/" s).
Proof.
  unfold backslash.
  cbn [replace startsWith drop String.length append].
  now rewrite andb_true_r, Ascii.eqb_sym.
Qed.

(** Only the first backslash is rewritten: what follows it is kept as it
    is, backslashes included. *)
Lemma normalized_first (a b : string) :
  mentions (ascii_of_nat 92) a = false ->
  normalized (a ++ backslash ++ b) = a ++ "/" ++ b.
Proof.
  unfold normalized. induction a as [|c a IH]; intros Hno.
  - reflexivity.
  - cbn [mentions] in Hno. apply orb_false_iff in Hno as [Hc Ha].
    cbn [append]. rewrite replace_backslash_cons, Hc.
    f_equal. now apply IH.
Qed.

Lemma normalized_none (a : string) :
  mentions (ascii_of_nat 92) a = false -> normalized a = a.
Proof.
  unfold normalized. induction a as [|c a IH]; intros Hno; [reflexivity|].
  cbn [mentions] in Hno. apply orb_false_iff in Hno as [Hc Ha].
  rewrite replace_backslash_cons, Hc. f_equal. now apply IH.
Qed.

Lemma mentions_app (c : ascii) (a b : string) :
  mentions c (a ++ b) = mentions c a || mentions c b.
Proof.
  induction a as [|d a IH]; cbn [append mentions]; [reflexivity|].
  now rewrite IH, orb_assoc.
Qed.

(** ** The exclusion matcher *)

Lemma isExcluded_run (name : string) (exclude : list string) (w : World) :
  isExcluded name exclude w =
  (matchAny (normalized name) exclude,
   logged (matchLog (normalized name) exclude) w).
Proof.
  unfold isExcluded. cbv zeta.
  change (replace backslash "/" name) with (normalized name).
  generalize (normalized name) as n. intros n.
  match goal with |- some ?g _ _ = _ => set (f := g) end.
  revert w. induction exclude as [|p ps IH]; intros w; cbn [some matchAny matchLog].
  - unfold ret. now rewrite logged_nil.
  - unfold bind at 1. unfold f at 1. unfold bind, lift.
    destruct (minimatch n p) as [[|]|e]; cbn [debug ret].
    + reflexivity.
    + change (some f ps (logged ["Minimatch false"] w) =
              (matchAny n ps, logged ("Minimatch false" :: matchLog n ps) w)).
      rewrite IH, logged_app. reflexivity.
    + now rewrite logged_nil.
Qed.

Lemma matchAny_false (n : string) (exclude : list string) :
  matchAny n exclude = Ok false <-> all_miss n exclude.
Proof.
  unfold all_miss. induction exclude as [|p ps IH]; cbn.
  - split; [constructor | reflexivity].
  - destruct (minimatch n p) as [[|]|e] eqn:Hp.
    + split; [discriminate|]. intros H. inversion H; congruence.
    + rewrite IH. split.
      * intros H. now constructor.
      * intros H. now inversion H.
    + split; [discriminate|]. intros H. inversion H; congruence.
Qed.

Lemma matchAny_decided (n : string) (exclude : list string) (r : Result Err bool) :
  r <> Ok false ->
  (matchAny n exclude = r <->
   exists pre p post,
     exclude = (pre ++ p :: post)%list /\ all_miss n pre /\ minimatch n p = r).
Proof.
  intros Hr. unfold all_miss. induction exclude as [|p ps IH]; cbn.
  - split.
    + intros H. congruence.
    + intros (pre & q & post & Heq & _). now destruct pre.
  - destruct (minimatch n p) as [[|]|e] eqn:Hp.
    + split.
      * intros <-. exists [], p, ps. repeat split; [constructor | assumption].
      * intros (pre & q & post & Heq & Hpre & Hq).
        destruct pre as [|p' pre]; cbn in Heq; injection Heq as -> ->.
        -- congruence.
        -- inversion Hpre; congruence.
    + rewrite IH. split.
      * intros (pre & q & post & -> & Hpre & Hq).
        exists (p :: pre), q, post. repeat split; [now constructor | assumption].
      * intros (pre & q & post & Heq & Hpre & Hq).
        destruct pre as [|p' pre]; cbn in Heq; injection Heq as -> ->.
        -- congruence.
        -- exists pre, q, post. repeat split; [now inversion Hpre | assumption].
    + split.
      * intros <-. exists [], p, ps. repeat split; [constructor | assumption].
      * intros (pre & q & post & Heq & Hpre & Hq).
        destruct pre as [|p' pre]; cbn in Heq; injection Heq as -> ->.
        -- congruence.
        -- inversion Hpre; congruence.
Qed.

(** C3, relative to the glob matcher.  [isExcluded] handles no error
    itself: it raises exactly when the glob matcher raises on a pattern reached before any
    match, with the matcher's error; it answers true exactly when the
    matcher answers true on such a pattern; it answers false exactly when
    the matcher answers false on every pattern.  It touches neither the
    linter nor the history of engine calls. *)
Theorem isExcluded_outcome (name : string) (exclude : list string) (w : World) :
  (forall e,
      fst (isExcluded name exclude w) = Throw e <->
      exists pre p post,
        exclude = (pre ++ p :: post)%list /\
        all_miss (normalized name) pre /\
        minimatch (normalized name) p = Throw e) /\
  (fst (isExcluded name exclude w) = Ok true <->
   exists pre p post,
     exclude = (pre ++ p :: post)%list /\
     all_miss (normalized name) pre /\
     minimatch (normalized name) p = Ok true) /\
  (fst (isExcluded name exclude w) = Ok false <->
   all_miss (normalized name) exclude) /\
  linter (snd (isExcluded name exclude w)) = linter w /\
  calls (snd (isExcluded name exclude w)) = calls w.
Proof.
  rewrite isExcluded_run. cbn [fst snd].
  split; [|split; [|split; [|split]]].
  - intros e. apply matchAny_decided. discriminate.
  - apply matchAny_decided. discriminate.
  - apply matchAny_false.
  - reflexivity.
  - reflexivity.
Qed.

(** A path with one backslash is matched like the same path written with
    a forward slash. *)
Lemma isExcluded_single_backslash (a b : string) (exclude : list string)
  (w : World) :
  mentions (ascii_of_nat 92) a = false ->
  mentions (ascii_of_nat 92) b = false ->
  isExcluded (a ++ backslash ++ b) exclude w
  = isExcluded (a ++ "/" ++ b) exclude w.
Proof.
  intros Ha Hb. rewrite !isExcluded_run.
  rewrite (normalized_first a b Ha).
  rewrite (normalized_none (a ++ "/" ++ b)); [reflexivity|].
  rewrite !mentions_app, Ha, Hb. reflexivity.
Qed.

(** With a matcher that always answers, [isExcluded] always answers. *)
Lemma isExcluded_total_with_total_matcher :
  (forall name pattern, exists b, minimatch name pattern = Ok b) ->
  isExcluded_total.
Proof.
  intros Htotal name exclude w. rewrite isExcluded_run. cbn [fst].
  induction exclude as [|p ps IH]; cbn [matchAny]; [now exists false|].
  destruct (Htotal (normalized name) p) as [[|] ->]; [now exists true|].
  exact IH.
Qed.

(** C2.  A path with two backslashes reaches the matcher with the second
    one still in place: whenever the matcher tells the half-rewritten path
    from the pattern, the path is excluded when written with forward
    slashes and not excluded when written with backslashes. *)
Theorem isExcluded_second_backslash_kept (w : World) :
  minimatch "src/lib/x.js" "src/lib/x.js" = Ok true ->
  minimatch ("src/lib" ++ backslash ++ "x.js") "src/lib/x.js" = Ok false ->
  fst (isExcluded ("src" ++ backslash ++ "lib" ++ backslash ++ "x.js")
                  ["src/lib/x.js"] w) = Ok false /\
  fst (isExcluded "src/lib/x.js" ["src/lib/x.js"] w) = Ok true.
Proof.
  intros Hsame Hother. rewrite !isExcluded_run. cbn [fst].
  replace (normalized ("src" ++ backslash ++ "lib" ++ backslash ++ "x.js"))
    with ("src/lib" ++ backslash ++ "x.js") by reflexivity.
  replace (normalized "src/lib/x.js") with "src/lib/x.js" by reflexivity.
  cbn [matchAny]. now rewrite Hsame, Hother.
Qed.

(** ** The file processor *)

Lemma processFile_missing (filename : string) (k : Helper) (w : World) :
  existsSync (resolve filename) = false ->
  processFile filename k w =
  (Ok (notFound filename, k),
   logged ["Couldn't find " ++ resolve filename] (after_reset w)).
Proof.
  intros Hmiss. unfold processFile. cbv zeta. rewrite Hmiss. reflexivity.
Qed.

Lemma processFile_filePath (filename : string) (k k' : Helper) (w w' : World)
  (r : LintResult Detail) :
  processFile filename k w = (Ok (r, k'), w') -> filePath r = filename.
Proof.
  unfold processFile. cbv zeta. run_eff.
  destruct (existsSync (resolve filename)).
  - destruct (getConfig k (resolve filename)) as [[c k1]|e]; [|discriminate].
    destruct (readFileSync (resolve filename)) as [text|e]; [|discriminate].
    destruct (eslint_verify _ text c filename) as [[msgs|e] s]; [|discriminate].
    now intros [= <- _ _].
  - now intros [= <- _ _].
Qed.

(** One call of [processFile] adds one [reset], or one [reset] and the
    [verify] of this very file, to the history. *)
Lemma processFile_calls (filename : string) (k : Helper) (w : World) :
  let s := eslint_reset (linter w) in
  calls (snd (processFile filename k w)) = (calls w ++ [CReset s])%list \/
  calls (snd (processFile filename k w))
  = (calls w ++ [CReset s; CVerify s filename])%list.
Proof.
  unfold processFile. cbv zeta. run_eff.
  destruct (existsSync (resolve filename)); [|now left].
  destruct (getConfig k (resolve filename)) as [[c k1]|e]; [|now left].
  destruct (readFileSync (resolve filename)) as [text|e]; [|now left].
  destruct (eslint_verify _ text c filename) as [[msgs|e] s];
    right; cbn [snd calls]; now rewrite <- app_assoc.
Qed.

(** What [processFile] returns, and the linter it leaves, depend on the
    world only through the state that [reset] produces. *)
Lemma processFile_alike (filename : string) (k : Helper) (w w' : World) :
  alike w w' ->
  fst (processFile filename k w) = fst (processFile filename k w') /\
  linter (snd (processFile filename k w))
  = linter (snd (processFile filename k w')).
Proof.
  unfold alike. intros Hreset.
  unfold processFile. cbv zeta. run_eff. rewrite Hreset.
  destruct (existsSync (resolve filename)); [|now split].
  destruct (getConfig k (resolve filename)) as [[c k1]|e]; [|now split].
  destruct (readFileSync (resolve filename)) as [text|e]; [|now split].
  destruct (eslint_verify _ text c filename) as [[msgs|e] s]; now split.
Qed.

Lemma processFile_clears (filename : string) (k : Helper) (w : World) :
  reset_clears -> alike (snd (processFile filename k w)) w.
Proof.
  intros [Hidem Hverify]. unfold alike.
  unfold processFile. cbv zeta. run_eff.
  destruct (existsSync (resolve filename)); [|apply Hidem].
  destruct (getConfig k (resolve filename)) as [[c k1]|e]; [|apply Hidem].
  destruct (readFileSync (resolve filename)) as [text|e]; [|apply Hidem].
  specialize (Hverify (linter w) text c filename).
  destruct (eslint_verify _ text c filename) as [[msgs|e] s]; exact Hverify.
Qed.

(** ** The traversal callback *)

Lemma callback_run (this : Engine) (files exclusions : list string)
  (acc : list (LintResult Detail)) (k : Helper) (filename : string) (w : World) :
  callback this files exclusions (acc, k) filename w =
  let w1 := logged ["Processing " ++ filename] w in
  if isJs filename then
    if ignore (options this) then
      let w2 := logged (matchLog (normalized filename) exclusions) w1 in
      match matchAny (normalized filename) exclusions with
      | Ok false => pushProcessed acc filename k w2
      | Ok true =>
          if (-1 <? indexOf files filename)%Z
          then (Ok ((acc ++ [ignoredResult filename])%list, k),
                logged ["Ignoring " ++ filename] w2)
          else (Ok (acc, k), w2)
      | Throw e => (Throw e, w2)
      end
    else pushProcessed acc filename k w1
  else (Ok (acc, k), w1).
Proof.
  unfold callback, isJs. cbv zeta. unfold bind at 1. rewrite debug_run.
  destruct (String.eqb (extname filename) ".js"); [|reflexivity].
  destruct (ignore (options this)); cbn [negb].
  - unfold bind at 1. unfold bind at 1. rewrite isExcluded_run.
    destruct (matchAny (normalized filename) exclusions) as [[|]|e];
      cbn [negb ret]; [|reflexivity|reflexivity].
    destruct (-1 <? indexOf files filename)%Z; reflexivity.
  - reflexivity.
Qed.

Lemma pushProcessed_run (acc : list (LintResult Detail)) (filename : string)
  (k : Helper) (w : World) :
  pushProcessed acc filename k w =
  match processFile filename k w with
  | (Ok (r, k'), w') => (Ok ((acc ++ [r])%list, k'), w')
  | (Throw e, w') => (Throw e, w')
  end.
Proof.
  unfold pushProcessed, bind.
  now destruct (processFile filename k w) as [[[r k']|e] w'].
Qed.

(** ** The run *)

Lemma executeOnFiles_run (this : Engine) (files : list string) (w : World) :
  executeOnFiles this files w =
  match Config_new (options this) with
  | Throw e => (Throw e, w)
  | Ok k0 =>
      match getExclusions k0 with
      | Throw e => (Throw e, w)
      | Ok (exclusions, k1) =>
          match foldM (callback this files exclusions) (fst (traverse files))
                      ([], k1) w with
          | (Throw e, w') => (Throw e, w')
          | (Ok (results, _), w') =>
              match snd (traverse files) with
              | None => (Ok {| results := results |}, w')
              | Some e => (Throw e, w')
              end
          end
      end
  end.
Proof.
  unfold executeOnFiles, traverse_call. run_eff.
  destruct (Config_new (options this)) as [k0|e]; [|reflexivity].
  destruct (getExclusions k0) as [[exclusions k1]|e]; [|reflexivity].
  destruct (traverse files) as [visited failure]. cbn [fst snd].
  destruct (foldM _ visited ([], k1) w) as [[[results k2]|e] w'];
    [|reflexivity].
  now destruct failure.
Qed.

Lemma bind_cong {A B} (m1 m2 : Eff A) (k1 k2 : A -> Eff B) (w : World) :
  m1 w = m2 w ->
  (forall a w', k1 a w' = k2 a w') ->
  bind m1 k1 w = bind m2 k2 w.
Proof.
  intros Hm Hk. unfold bind. rewrite Hm.
  destruct (m2 w) as [[a|e] w']; [apply Hk | reflexivity].
Qed.

Lemma foldM_ext {A St} (f g : St -> A -> Eff St) (l : list A) :
  (forall st x w, f st x w = g st x w) ->
  forall st w, foldM f l st w = foldM g l st w.
Proof.
  intros Hfg. induction l as [|x xs IH]; intros st w; cbn [foldM]; [reflexivity|].
  unfold bind. rewrite Hfg.
  destruct (g st x w) as [[st'|e] w']; [apply IH | reflexivity].
Qed.

(** A property of the local state that every callback keeps is kept by
    the loop. *)
Lemma foldM_keeps {A St} (f : St -> A -> Eff St) (I : St -> Prop) :
  (forall st x w st' w', I st -> f st x w = (Ok st', w') -> I st') ->
  forall l st w st' w',
    I st -> foldM f l st w = (Ok st', w') -> I st'.
Proof.
  intros Hstep. induction l as [|x xs IH]; intros st w st' w' Hst; cbn [foldM].
  - unfold ret. now intros [= <- _].
  - unfold bind. destruct (f st x w) as [[st1|e] w1] eqn:Hf; [|discriminate].
    apply IH. eapply Hstep; eassumption.
Qed.

(** A property of the world that every callback keeps, returning or
    throwing, is kept by the loop. *)
Lemma foldM_world {A St} (f : St -> A -> Eff St) (J : World -> Prop) :
  (forall st x w, J w -> J (snd (f st x w))) ->
  forall l st w, J w -> J (snd (foldM f l st w)).
Proof.
  intros Hstep. induction l as [|x xs IH]; intros st w Hw; cbn [foldM].
  - exact Hw.
  - unfold bind. specialize (Hstep st x w Hw).
    destruct (f st x w) as [[st1|e] w1]; cbn [snd] in Hstep.
    + now apply IH.
    + exact Hstep.
Qed.

Lemma callback_pushes_js (this : Engine) (files exclusions : list string)
  (st st' : list (LintResult Detail) * Helper) (filename : string)
  (w w' : World) :
  Forall (fun r => isJs (filePath r) = true) (fst st) ->
  callback this files exclusions st filename w = (Ok st', w') ->
  Forall (fun r => isJs (filePath r) = true) (fst st').
Proof.
  destruct st as [acc k]. cbn [fst]. intros Hacc.
  rewrite callback_run. cbv zeta.
  destruct (isJs filename) eqn:Hjs; [|now intros [= <- _]].
  assert (Hpush : forall w0,
             pushProcessed acc filename k w0 = (Ok st', w') ->
             Forall (fun r => isJs (filePath r) = true) (fst st')).
  { intros w0. rewrite pushProcessed_run.
    destruct (processFile filename k w0) as [[[r k']|e] w1] eqn:Hp;
      [|discriminate].
    intros [= <- _]. cbn [fst]. apply Forall_app. split; [exact Hacc|].
    constructor; [|constructor].
    now rewrite (processFile_filePath _ _ _ Hp). }
  destruct (ignore (options this)); [|apply Hpush].
  destruct (matchAny (normalized filename) exclusions) as [[|]|e];
    [|apply Hpush|discriminate].
  destruct (-1 <? indexOf files filename)%Z; intros [= <- _]; cbn [fst];
    [|exact Hacc].
  apply Forall_app. split; [exact Hacc|]. now repeat constructor.
Qed.

Lemma run_reports_js_only (this : Engine) (files : list string) (w w' : World)
  (report : RunReport Detail) :
  executeOnFiles this files w = (Ok report, w') ->
  Forall (fun r => isJs (filePath r) = true) (results report).
Proof.
  rewrite executeOnFiles_run.
  destruct (Config_new (options this)) as [k0|e]; [|discriminate].
  destruct (getExclusions k0) as [[exclusions k1]|e]; [|discriminate].
  destruct (foldM _ _ ([], k1) w) as [[[res k2]|e] w1] eqn:Hfold;
    [|discriminate].
  destruct (snd (traverse files)); [discriminate|].
  intros [= <- _]. cbn [results].
  change res with (fst (res, k2)).
  eapply foldM_keeps with (I := fun st => Forall _ (fst st));
    [|shelve|exact Hfold].
  - intros st x w2 st' w2'. apply callback_pushes_js.
  Unshelve. constructor.
Qed.

Lemma results_for_none (p : string) (l : list (LintResult Detail)) :
  ~ In p (map filePath l) -> results_for p l = [].
Proof.
  unfold results_for. induction l as [|r l IH]; cbn; [reflexivity|].
  intros Hnot. destruct (String.eqb_spec (filePath r) p) as [Heq|Hne].
  - exfalso. apply Hnot. now left.
  - apply IH. intros Hin. apply Hnot. now right.
Qed.

(** C7.  No result of a run names a path whose extension is not [.js]
    (compared as it is, case included). *)
Theorem other_extensions_yield_no_result (this : Engine) (files : list string)
  (w w' : World) (report : RunReport Detail) (p : string) :
  executeOnFiles this files w = (Ok report, w') ->
  extname p <> ".js" ->
  ~ In p (map filePath (results report)).
Proof.
  intros Hrun Hext Hin. apply run_reports_js_only in Hrun.
  apply in_map_iff in Hin as (r & <- & Hr).
  rewrite Forall_forall in Hrun. specialize (Hrun r Hr).
  unfold isJs in Hrun. now apply String.eqb_eq in Hrun.
Qed.

(** C10.  A path named by the caller whose extension is not [.js] is
    dropped by the callback before anything else is looked at: the local
    state is handed back as it was, only the [Processing] line reaches the
    debug stream, and the report of the run holds nothing for the path. *)
Theorem explicit_other_extension_dropped (this : Engine) (files : list string)
  (p : string) :
  In p files ->
  extname p <> ".js" ->
  (forall exclusions acc k w,
      callback this files exclusions (acc, k) p w
      = (Ok (acc, k), logged ["Processing " ++ p] w)) /\
  (forall w w' report,
      executeOnFiles this files w = (Ok report, w') ->
      results_for p (results report) = []).
Proof.
  intros _ Hext. split.
  - intros exclusions acc k w. rewrite callback_run. cbv zeta.
    unfold isJs. destruct (String.eqb_spec (extname p) ".js"); [contradiction|].
    reflexivity.
  - intros w w' report Hrun. apply results_for_none.
    intros Hin. apply run_reports_js_only in Hrun.
    apply in_map_iff in Hin as (r & <- & Hr).
    rewrite Forall_forall in Hrun. specialize (Hrun r Hr).
    unfold isJs in Hrun. now apply String.eqb_eq in Hrun.
Qed.

(** ** Runs with exclusion switched off *)

Lemma callback_unfiltered (this : Engine) (files exclusions : list string)
  (st : list (LintResult Detail) * Helper) (filename : string) (w : World) :
  ignore (options this) = false ->
  callback this files exclusions st filename w = lintUnfiltered st filename w.
Proof.
  intros Hoff. unfold callback, lintUnfiltered. destruct st as [acc k].
  rewrite Hoff. cbn [negb]. unfold bind at 1. unfold bind at 3.
  rewrite debug_run.
  destruct (String.eqb (extname filename) ".js"); reflexivity.
Qed.

Lemma lintUnfiltered_paths (visited : list string)
  (acc acc' : list (LintResult Detail)) (k k' : Helper) (w w' : World) :
  foldM lintUnfiltered visited (acc, k) w = (Ok (acc', k'), w') ->
  map filePath acc' = (map filePath acc ++ filter isJs visited)%list.
Proof.
  revert acc k w. induction visited as [|f fs IH]; intros acc k w; cbn [foldM filter].
  - unfold ret. intros [= <- _ _]. now rewrite app_nil_r.
  - unfold bind at 1. unfold lintUnfiltered at 1.
    unfold bind at 1. rewrite debug_run. fold (isJs f).
    destruct (isJs f).
    + fold (pushProcessed acc f k). rewrite pushProcessed_run.
      destruct (processFile f k _) as [[[r k1]|e] w1] eqn:Hp; [|discriminate].
      intros Hrest. apply IH in Hrest. rewrite Hrest, map_app. cbn [map].
      rewrite (processFile_filePath _ _ _ Hp), <- app_assoc. reflexivity.
    + unfold ret at 1. apply IH.
Qed.

(** C8.  With the [ignore] option false the run is the run that fetches
    the exclusion patterns and never consults them: every visited path
    with the [.js] extension goes to [processFile], and the report lists
    exactly these paths, in the order of the visit. *)
Theorem no_ignore_processes_every_js (this : Engine) :
  ignore (options this) = false ->
  (forall files w, executeOnFiles this files w = executeUnfiltered this files w) /\
  (forall files w w' report,
      executeOnFiles this files w = (Ok report, w') ->
      map filePath (results report) = filter isJs (fst (traverse files))).
Proof.
  intros Hoff.
  assert (Hsame : forall files w,
             executeOnFiles this files w = executeUnfiltered this files w).
  { intros files w. unfold executeOnFiles, executeUnfiltered.
    apply bind_cong; [reflexivity|]. intros k0 w1.
    apply bind_cong; [reflexivity|]. intros [exclusions k1] w2.
    apply bind_cong; [|reflexivity].
    unfold traverse_call. destruct (traverse files) as [visited failure].
    apply bind_cong; [|reflexivity].
    apply foldM_ext. intros st x w0. now apply callback_unfiltered. }
  split; [exact Hsame|].
  intros files w w' report. rewrite Hsame.
  unfold executeUnfiltered, traverse_call. run_eff.
  destruct (Config_new (options this)) as [k0|e]; [|discriminate].
  destruct (getExclusions k0) as [[exclusions k1]|e]; [|discriminate].
  destruct (traverse files) as [visited failure]. cbn [fst].
  destruct (foldM lintUnfiltered visited ([], k1) w) as [[[res k2]|e] w1] eqn:Hfold;
    [|discriminate].
  destruct failure; [discriminate|].
  intros [= <- _]. cbn [results].
  now apply lintUnfiltered_paths in Hfold.
Qed.

(** ** The history of engine calls *)

Lemma per_file_app (a b : list EngineCall) :
  per_file a -> per_file b -> per_file (a ++ b).
Proof.
  intros Ha Hb. induction Hb as [|evs s Hb IH|evs s f Hb IH].
  - now rewrite app_nil_r.
  - rewrite app_assoc. now constructor.
  - rewrite app_assoc. now constructor.
Qed.

Lemma per_file_paired (evs : list EngineCall) :
  per_file evs -> reset_before_verify evs.
Proof.
  unfold reset_before_verify.
  intros H. induction H as [|evs s H IH|evs s f H IH];
    intros pre s' f' post Heq.
  - now destruct pre.
  - destruct (@exists_last _ (CVerify s' f' :: post)) as (post' & x & Hlast);
      [discriminate|].
    destruct post as [|y post].
    + apply (f_equal (@rev _)) in Heq. rewrite !rev_app_distr in Heq.
      cbn in Heq. discriminate.
    + destruct (@exists_last _ (y :: post)) as (post1 & z & Hpost);
        [discriminate|].
      rewrite Hpost in Heq.
      change (pre ++ CVerify s' f' :: post1 ++ [z])%list
        with (pre ++ (CVerify s' f' :: post1) ++ [z])%list in Heq.
      rewrite app_assoc in Heq. apply app_inj_tail in Heq as [Heq _].
      eapply IH. exact Heq.
  - destruct post as [|y post].
    + change (evs ++ [CReset s; CVerify s f])%list
        with (evs ++ [CReset s] ++ [CVerify s f])%list in Heq.
      rewrite app_assoc in Heq. apply app_inj_tail in Heq as [<- [= <- _]].
      now exists evs.
    + destruct (@exists_last _ (y :: post)) as (post1 & z & Hpost);
        [discriminate|].
      rewrite Hpost in Heq.
      change (evs ++ [CReset s; CVerify s f])%list
        with (evs ++ [CReset s] ++ [CVerify s f])%list in Heq.
      change (pre ++ CVerify s' f' :: post1 ++ [z])%list
        with (pre ++ (CVerify s' f' :: post1) ++ [z])%list in Heq.
      rewrite !app_assoc in Heq. apply app_inj_tail in Heq as [Heq _].
      destruct post1 as [|y1 post1].
      * apply app_inj_tail in Heq as [_ Habs]. discriminate.
      * destruct (@exists_last _ (y1 :: post1)) as (post2 & z2 & Hpost2);
          [discriminate|].
        rewrite Hpost2 in Heq.
        change (pre ++ CVerify s' f' :: post2 ++ [z2])%list
          with (pre ++ (CVerify s' f' :: post2) ++ [z2])%list in Heq.
        rewrite app_assoc in Heq. apply app_inj_tail in Heq as [Heq _].
        eapply IH. exact Heq.
Qed.

(** A visit either leaves the engine alone, or the path is one that the
    run processes and the visit adds the calls of one [processFile]. *)
Lemma callback_calls (this : Engine) (files exclusions : list string)
  (acc : list (LintResult Detail)) (k : Helper) (filename : string) (w : World) :
  let s := eslint_reset (linter w) in
  let w' := snd (callback this files exclusions (acc, k) filename w) in
  (calls w' = calls w /\ linter w' = linter w) \/
  (isJs filename = true /\
   (ignore (options this) = false \/
    matchAny (normalized filename) exclusions = Ok false) /\
   (calls w' = (calls w ++ [CReset s])%list \/
    calls w' = (calls w ++ [CReset s; CVerify s filename])%list)).
Proof.
  cbv zeta. rewrite callback_run. cbv zeta.
  assert (Hpush : forall lines,
             let w1 := snd (pushProcessed acc filename k (logged lines w)) in
             calls w1 = (calls w ++ [CReset (eslint_reset (linter w))])%list \/
             calls w1 = (calls w ++ [CReset (eslint_reset (linter w));
                                     CVerify (eslint_reset (linter w)) filename])%list).
  { intros lines. cbv zeta. rewrite pushProcessed_run.
    pose proof (processFile_calls filename k (logged lines w)) as Hc.
    cbv zeta in Hc. cbn [logged linter calls] in Hc.
    now destruct (processFile filename k (logged lines w)) as [[[r k']|e] w1]. }
  destruct (isJs filename); [|now left].
  destruct (ignore (options this)).
  - destruct (matchAny (normalized filename) exclusions) as [[|]|e] eqn:Hm.
    + destruct (-1 <? indexOf files filename)%Z; now left.
    + right. rewrite logged_app. split; [reflexivity|]. split; [now right|].
      apply Hpush.
    + now left.
  - right. split; [reflexivity|]. split; [now left|]. apply Hpush.
Qed.

Lemma run_calls_per_file (this : Engine) (files exclusions visited : list string)
  (st : list (LintResult Detail) * Helper) (w : World) :
  exists evs,
    calls (snd (foldM (callback this files exclusions) visited st w))
    = (calls w ++ evs)%list /\ per_file evs.
Proof.
  apply foldM_world
    with (J := fun w' => exists evs, calls w' = (calls w ++ evs)%list /\ per_file evs).
  - intros [acc k] x w1 (evs & Hevs & Hper).
    destruct (callback_calls this files exclusions acc k x w1)
      as [[Hsame _]|(_ & _ & [Hone|Htwo])].
    + exists evs. now rewrite Hsame.
    + exists (evs ++ [CReset (eslint_reset (linter w1))])%list.
      rewrite Hone, Hevs, app_assoc. split; [reflexivity | now constructor].
    + exists (evs ++ [CReset (eslint_reset (linter w1));
                      CVerify (eslint_reset (linter w1)) x])%list.
      rewrite Htwo, Hevs, app_assoc. split; [reflexivity | now constructor].
  - exists []. rewrite app_nil_r. split; [reflexivity | constructor].
Qed.

(** C6.  In the calls that a run makes to the verification engine, each
    [verify] comes right after a [reset], with no [verify] in between, and
    it starts from the state this [reset] left. *)
Theorem every_verify_follows_a_reset (this : Engine) (files : list string)
  (w : World) :
  exists evs,
    calls (snd (executeOnFiles this files w)) = (calls w ++ evs)%list /\
    reset_before_verify evs.
Proof.
  rewrite executeOnFiles_run.
  assert (Hnone : exists evs,
             calls w = (calls w ++ evs)%list /\ reset_before_verify evs).
  { exists []. rewrite app_nil_r. split; [reflexivity|].
    apply per_file_paired. constructor. }
  destruct (Config_new (options this)) as [k0|e]; [|exact Hnone].
  destruct (getExclusions k0) as [[exclusions k1]|e]; [|exact Hnone].
  destruct (run_calls_per_file this files exclusions (fst (traverse files))
              ([], k1) w) as (evs & Hevs & Hper).
  exists evs. split; [|now apply per_file_paired].
  destruct (foldM _ _ ([], k1) w) as [[[res k2]|e] w1]; cbn [snd] in *;
    [|exact Hevs].
  now destruct (snd (traverse files)).
Qed.

(** ** Running twice *)

Lemma alike_logged (lines : list string) (w w' : World) :
  alike w w' -> alike (logged lines w) (logged lines w').
Proof. now unfold alike. Qed.

Lemma pushProcessed_alike (acc : list (LintResult Detail)) (filename : string)
  (k : Helper) (w w' : World) :
  alike w w' ->
  fst (pushProcessed acc filename k w) = fst (pushProcessed acc filename k w') /\
  alike (snd (pushProcessed acc filename k w))
        (snd (pushProcessed acc filename k w')).
Proof.
  intros Hw. rewrite !pushProcessed_run.
  destruct (processFile_alike filename k Hw) as [Hfst Hlinter].
  destruct (processFile filename k w) as [[[r k1]|e] w1];
    destruct (processFile filename k w') as [[[r' k1']|e'] w1'];
    cbn [fst snd] in *; try discriminate;
    (split; [congruence | unfold alike; now rewrite Hlinter]).
Qed.

Lemma callback_alike (this : Engine) (files exclusions : list string)
  (st : list (LintResult Detail) * Helper) (filename : string) (w w' : World) :
  alike w w' ->
  fst (callback this files exclusions st filename w)
  = fst (callback this files exclusions st filename w') /\
  alike (snd (callback this files exclusions st filename w))
        (snd (callback this files exclusions st filename w')).
Proof.
  intros Hw. destruct st as [acc k]. rewrite !callback_run. cbv zeta.
  destruct (isJs filename); [|split; [reflexivity | now apply alike_logged]].
  destruct (ignore (options this)).
  - destruct (matchAny (normalized filename) exclusions) as [[|]|e].
    + destruct (-1 <? indexOf files filename)%Z;
        (split; [reflexivity | now repeat apply alike_logged]).
    + apply pushProcessed_alike. now repeat apply alike_logged.
    + split; [reflexivity | now repeat apply alike_logged].
  - apply pushProcessed_alike. now apply alike_logged.
Qed.

Lemma callback_clears (this : Engine) (files exclusions : list string)
  (st : list (LintResult Detail) * Helper) (filename : string) (w : World) :
  reset_clears -> alike (snd (callback this files exclusions st filename w)) w.
Proof.
  intros Hclr. destruct st as [acc k]. rewrite callback_run. cbv zeta.
  assert (Hpush : forall lines,
             alike (snd (pushProcessed acc filename k (logged lines w))) w).
  { intros lines. rewrite pushProcessed_run.
    pose proof (processFile_clears filename k (logged lines w) Hclr) as Hp.
    destruct (processFile filename k (logged lines w)) as [[[r k1]|e] w1];
      exact Hp. }
  destruct (isJs filename); [|reflexivity].
  destruct (ignore (options this)); [|apply Hpush].
  destruct (matchAny (normalized filename) exclusions) as [[|]|e];
    [|rewrite logged_app; apply Hpush|reflexivity].
  destruct (-1 <? indexOf files filename)%Z; reflexivity.
Qed.

Lemma foldM_alike (this : Engine) (files exclusions visited : list string)
  (st : list (LintResult Detail) * Helper) (w w' : World) :
  alike w w' ->
  fst (foldM (callback this files exclusions) visited st w)
  = fst (foldM (callback this files exclusions) visited st w') /\
  alike (snd (foldM (callback this files exclusions) visited st w))
        (snd (foldM (callback this files exclusions) visited st w')).
Proof.
  revert st w w'. induction visited as [|x xs IH]; intros st w w' Hw; cbn [foldM].
  - now split.
  - unfold bind.
    destruct (callback_alike this files exclusions st x Hw) as [Hfst Hsnd].
    destruct (callback this files exclusions st x w) as [[st1|e] w1];
      destruct (callback this files exclusions st x w') as [[st1'|e'] w1'];
      cbn [fst snd] in *; try discriminate.
    + injection Hfst as <-. now apply IH.
    + now split.
Qed.

Lemma executeOnFiles_alike (this : Engine) (files : list string) (w w' : World) :
  alike w w' ->
  fst (executeOnFiles this files w) = fst (executeOnFiles this files w').
Proof.
  intros Hw. rewrite !executeOnFiles_run.
  destruct (Config_new (options this)) as [k0|e]; [|reflexivity].
  destruct (getExclusions k0) as [[exclusions k1]|e]; [|reflexivity].
  destruct (foldM_alike this files exclusions (fst (traverse files)) ([], k1) Hw)
    as [Hfst _].
  destruct (foldM _ _ ([], k1) w) as [[[res k2]|e] w1];
    destruct (foldM _ _ ([], k1) w') as [[[res' k2']|e'] w1'];
    cbn [fst] in Hfst; try discriminate.
  - injection Hfst as <- <-. now destruct (snd (traverse files)).
  - now injection Hfst as <-.
Qed.

Lemma executeOnFiles_clears (this : Engine) (files : list string) (w : World) :
  reset_clears -> alike (snd (executeOnFiles this files w)) w.
Proof.
  intros Hclr. rewrite executeOnFiles_run.
  destruct (Config_new (options this)) as [k0|e]; [|reflexivity].
  destruct (getExclusions k0) as [[exclusions k1]|e]; [|reflexivity].
  assert (Hfold : alike (snd (foldM (callback this files exclusions)
                                    (fst (traverse files)) ([], k1) w)) w).
  { apply foldM_world with (J := fun w' => alike w' w); [|reflexivity].
    intros st x w1 Hw1. unfold alike in *.
    now rewrite (callback_clears this files exclusions st x w1 Hclr). }
  destruct (foldM _ _ ([], k1) w) as [[[res k2]|e] w1]; cbn [snd] in *;
    [|exact Hfold].
  now destruct (snd (traverse files)).
Qed.

(** C5.  When [reset] clears what [verify] left behind, a second run of
    [executeOnFiles] on the same engine and the same paths, started in the
    world the first run left, has the outcome of the first: the same
    report, results and messages in the same order (or the same error). *)
Theorem executeOnFiles_twice (this : Engine) (files : list string) (w : World) :
  reset_clears ->
  fst (executeOnFiles this files (snd (executeOnFiles this files w)))
  = fst (executeOnFiles this files w).
Proof.
  intros Hclr. apply executeOnFiles_alike.
  now apply executeOnFiles_clears.
Qed.

(** ** Excluded paths *)

Lemma results_for_app (p : string) (a b : list (LintResult Detail)) :
  results_for p (a ++ b) = (results_for p a ++ results_for p b)%list.
Proof. apply filter_app. Qed.

Lemma results_for_other (p : string) (r : LintResult Detail) :
  filePath r <> p -> results_for p [r] = [].
Proof.
  intros Hne. unfold results_for. cbn.
  now destruct (String.eqb_spec (filePath r) p).
Qed.

Lemma results_for_ignored (p : string) :
  results_for p [ignoredResult p] = [ignoredResult p].
Proof.
  unfold results_for. cbn. now rewrite String.eqb_refl.
Qed.

(** A visit of another path changes nothing in the results for [p]. *)
Lemma callback_results_other (this : Engine) (files exclusions : list string)
  (acc acc' : list (LintResult Detail)) (k k' : Helper) (x p : string)
  (w w' : World) :
  x <> p ->
  callback this files exclusions (acc, k) x w = (Ok (acc', k'), w') ->
  results_for p acc' = results_for p acc.
Proof.
  intros Hne. rewrite callback_run. cbv zeta.
  assert (Hpush : forall w0,
             pushProcessed acc x k w0 = (Ok (acc', k'), w') ->
             results_for p acc' = results_for p acc).
  { intros w0. rewrite pushProcessed_run.
    destruct (processFile x k w0) as [[[r k1]|e] w1] eqn:Hp; [|discriminate].
    intros [= <- _ _]. rewrite results_for_app, results_for_other.
    - apply app_nil_r.
    - now rewrite (processFile_filePath _ _ _ Hp). }
  destruct (isJs x); [|now intros [= <- _ _]].
  destruct (ignore (options this)); [|apply Hpush].
  destruct (matchAny (normalized x) exclusions) as [[|]|e];
    [|apply Hpush|discriminate].
  destruct (-1 <? indexOf files x)%Z; intros [= <- _ _]; [|reflexivity].
  rewrite results_for_app, results_for_other; [apply app_nil_r | exact Hne].
Qed.

(** A visit of an excluded [.js] path, with [ignore] on. *)
Lemma callback_excluded (this : Engine) (files exclusions : list string)
  (acc : list (LintResult Detail)) (k : Helper) (p : string) (w : World) :
  ignore (options this) = true ->
  isJs p = true ->
  matchAny (normalized p) exclusions = Ok true ->
  let out := callback this files exclusions (acc, k) p w in
  fst out = Ok (if (-1 <? indexOf files p)%Z
                then (acc ++ [ignoredResult p])%list else acc, k) /\
  linter (snd out) = linter w /\
  calls (snd out) = calls w.
Proof.
  intros Hon Hjs Hm. cbv zeta. rewrite callback_run. cbv zeta.
  rewrite Hjs, Hon, Hm.
  now destruct (-1 <? indexOf files p)%Z.
Qed.

Lemma run_results_for_excluded (this : Engine) (files exclusions : list string)
  (p : string) :
  ignore (options this) = true ->
  isJs p = true ->
  matchAny (normalized p) exclusions = Ok true ->
  forall visited acc k w acc' k' w',
    foldM (callback this files exclusions) visited (acc, k) w
    = (Ok (acc', k'), w') ->
    results_for p acc' =
    (results_for p acc ++
     if (-1 <? indexOf files p)%Z
     then repeat (ignoredResult p) (count_occ string_dec visited p)
     else [])%list.
Proof.
  intros Hon Hjs Hm.
  induction visited as [|x xs IH]; intros acc k w acc' k' w'; cbn [foldM].
  - unfold ret. intros [= <- _ _]. cbn [count_occ repeat].
    destruct (-1 <? indexOf files p)%Z; now rewrite app_nil_r.
  - unfold bind.
    destruct (callback this files exclusions (acc, k) x w)
      as [[[acc1 k1]|e] w1] eqn:Hx; [|discriminate].
    intros Hrest. apply IH in Hrest. rewrite Hrest. clear Hrest.
    cbn [count_occ]. destruct (string_dec x p) as [->|Hne].
    + destruct (callback_excluded this files exclusions acc k p w Hon Hjs Hm)
        as [Hout _].
      cbv zeta in Hout. rewrite Hx in Hout. cbn [fst] in Hout.
      destruct (-1 <? indexOf files p)%Z; injection Hout as -> _.
      * rewrite results_for_app, results_for_ignored, <- app_assoc.
        reflexivity.
      * reflexivity.
    + apply callback_results_other with (p := p) in Hx; [|exact Hne].
      now rewrite Hx.
Qed.

Lemma run_never_verifies_excluded (this : Engine) (files exclusions : list string)
  (p : string) :
  ignore (options this) = true ->
  matchAny (normalized p) exclusions = Ok true ->
  forall visited st w,
  exists evs,
    calls (snd (foldM (callback this files exclusions) visited st w))
    = (calls w ++ evs)%list /\ ~ verified p evs.
Proof.
  intros Hon Hm visited st w.
  apply foldM_world
    with (J := fun w' => exists evs,
                   calls w' = (calls w ++ evs)%list /\ ~ verified p evs).
  - intros [acc k] x w1 (evs & Hevs & Hnot).
    destruct (callback_calls this files exclusions acc k x w1)
      as [[Hsame _]|(_ & Hproc & Hnew)].
    + exists evs. now rewrite Hsame.
    + assert (Hne : x <> p).
      { intros ->. destruct Hproc as [Hoff|Hfalse]; congruence. }
      destruct Hnew as [Hone|Htwo].
      * exists (evs ++ [CReset (eslint_reset (linter w1))])%list.
        rewrite Hone, Hevs, app_assoc. split; [reflexivity|].
        intros [s Hin]. apply in_app_or in Hin as [Hin|[Hin|[]]].
        -- apply Hnot. now exists s.
        -- discriminate.
      * exists (evs ++ [CReset (eslint_reset (linter w1));
                        CVerify (eslint_reset (linter w1)) x])%list.
        rewrite Htwo, Hevs, app_assoc. split; [reflexivity|].
        intros [s Hin]. apply in_app_or in Hin as [Hin|[Hin|[Hin|[]]]].
        -- apply Hnot. now exists s.
        -- discriminate.
        -- injection Hin as _ Heq. contradiction.
  - exists []. rewrite app_nil_r. split; [reflexivity|].
    intros [s []].
Qed.

(** C1, for paths with the [.js] extension.  Take such a path that the
    exclusion patterns of the run match, [ignore] being on.  Each visit of
    it leaves the linter and the history of engine calls untouched, and
    pushes one ignored-file result if the path is among the paths the
    caller named, nothing otherwise.  So the report holds one such result
    per visit in the first case and no result for the path in the second,
    and the run never calls [verify] for it. *)
Theorem excluded_js_path_reporting (this : Engine) (files : list string)
  (p : string) (k0 k1 : Helper) (exclusions : list string) (w : World) :
  ignore (options this) = true ->
  Config_new (options this) = Ok k0 ->
  getExclusions k0 = Ok (exclusions, k1) ->
  extname p = ".js" ->
  fst (isExcluded p exclusions w) = Ok true ->
  (forall acc k w1,
      let out := callback this files exclusions (acc, k) p w1 in
      (In p files -> fst out = Ok ((acc ++ [ignoredResult p])%list, k)) /\
      (~ In p files -> fst out = Ok (acc, k)) /\
      linter (snd out) = linter w1 /\
      calls (snd out) = calls w1) /\
  (forall report w',
      executeOnFiles this files w = (Ok report, w') ->
      (In p files ->
       results_for p (results report)
       = repeat (ignoredResult p)
                (count_occ string_dec (fst (traverse files)) p)) /\
      (~ In p files -> results_for p (results report) = [])) /\
  (forall evs,
      calls (snd (executeOnFiles this files w)) = (calls w ++ evs)%list ->
      ~ verified p evs).
Proof.
  intros Hon Hcfg Hexcl Hext Hmatch.
  rewrite isExcluded_run in Hmatch. cbn [fst] in Hmatch.
  assert (Hjs : isJs p = true) by (unfold isJs; now rewrite Hext).
  split; [|split].
  - intros acc k w1.
    destruct (callback_excluded this files exclusions acc k p w1 Hon Hjs Hmatch)
      as (Hout & Hlinter & Hcalls).
    cbv zeta in *. repeat split; try assumption.
    + intros Hin. apply indexOf_In in Hin. now rewrite Hin in Hout.
    + intros Hnot. apply indexOf_not_In in Hnot. now rewrite Hnot in Hout.
  - intros report w'. rewrite executeOnFiles_run, Hcfg, Hexcl.
    destruct (foldM _ _ ([], k1) w) as [[[res k2]|e] w1] eqn:Hfold;
      [|discriminate].
    destruct (snd (traverse files)); [discriminate|].
    intros [= <- _]. cbn [results].
    apply (run_results_for_excluded this files exclusions p Hon Hjs Hmatch)
      in Hfold.
    rewrite Hfold. cbn [results_for filter app]. split.
    + intros Hin. apply indexOf_In in Hin. now rewrite Hin.
    + intros Hnot. apply indexOf_not_In in Hnot. now rewrite Hnot.
  - intros evs. rewrite executeOnFiles_run, Hcfg, Hexcl.
    destruct (run_never_verifies_excluded this files exclusions p Hon Hmatch
                (fst (traverse files)) ([], k1) w) as (evs0 & Hevs0 & Hnot).
    assert (Hcalls : forall w2, calls w2 = calls (snd (foldM
                       (callback this files exclusions)
                       (fst (traverse files)) ([], k1) w)) ->
                     calls w2 = (calls w ++ evs)%list -> ~ verified p evs).
    { intros w2 Hw2 Hw2'. rewrite Hw2, Hevs0 in Hw2'.
      apply app_inv_head in Hw2'. now subst evs0. }
    destruct (foldM _ _ ([], k1) w) as [[[res k2]|e] w1]; cbn [snd] in *.
    + destruct (snd (traverse files)); cbn [snd]; now apply Hcalls.
    + now apply Hcalls.
Qed.

(** ** Missing files *)

Lemma contains_middle (before part after : string) :
  contains part (before ++ part ++ after).
Proof. now exists before, after. Qed.

Lemma results_for_notFound (p : string) :
  results_for p [notFound p] = [notFound p].
Proof.
  unfold results_for. cbn. now rewrite String.eqb_refl.
Qed.

(** A visit of a [.js] path at which there is no file and which the run
    does not exclude. *)
Lemma callback_missing (this : Engine) (files exclusions : list string)
  (acc : list (LintResult Detail)) (k : Helper) (p : string) (w : World) :
  existsSync (resolve p) = false ->
  isJs p = true ->
  ignore (options this) = false \/
  matchAny (normalized p) exclusions = Ok false ->
  exists w1,
    callback this files exclusions (acc, k) p w
    = (Ok ((acc ++ [notFound p])%list, k), w1).
Proof.
  intros Hmiss Hjs Hproc. rewrite callback_run. cbv zeta. rewrite Hjs.
  destruct (ignore (options this)).
  - destruct Hproc as [Hoff | ->]; [discriminate|].
    rewrite pushProcessed_run, processFile_missing by exact Hmiss.
    eexists. reflexivity.
  - rewrite pushProcessed_run, processFile_missing by exact Hmiss.
    eexists. reflexivity.
Qed.

Lemma run_results_for_missing (this : Engine) (files exclusions : list string)
  (p : string) :
  existsSync (resolve p) = false ->
  isJs p = true ->
  ignore (options this) = false \/
  matchAny (normalized p) exclusions = Ok false ->
  forall visited acc k w acc' k' w',
    foldM (callback this files exclusions) visited (acc, k) w
    = (Ok (acc', k'), w') ->
    results_for p acc' =
    (results_for p acc ++
     repeat (notFound p) (count_occ string_dec visited p))%list.
Proof.
  intros Hmiss Hjs Hproc.
  induction visited as [|x xs IH]; intros acc k w acc' k' w'; cbn [foldM].
  - unfold ret. intros [= <- _ _]. cbn [count_occ repeat].
    now rewrite app_nil_r.
  - unfold bind.
    destruct (callback this files exclusions (acc, k) x w)
      as [[[acc1 k1]|e] w1] eqn:Hx; [|discriminate].
    intros Hrest. apply IH in Hrest. rewrite Hrest. clear Hrest.
    cbn [count_occ]. destruct (string_dec x p) as [->|Hne].
    + destruct (callback_missing this files exclusions acc k p w
                  Hmiss Hjs Hproc) as [w2 Hw2].
      rewrite Hw2 in Hx. injection Hx as <- _ _.
      rewrite results_for_app, results_for_notFound, <- app_assoc.
      reflexivity.
    + apply callback_results_other with (p := p) in Hx; [|exact Hne].
      now rewrite Hx.
Qed.

(** C4, for the visits of a run.  At a path where no file exists,
    [processFile] returns one result under the path as it was given, with
    one fatal message that holds the resolved path.  In a run, each visit
    of such a path that has the [.js] extension and is not excluded
    ([ignore] off, or no pattern matches) pushes this result and the loop
    goes on with the next path.  So a report holds this result once per
    visit of the path, and nothing for the path when the walker does not
    hand it to the callback. *)
Theorem missing_file_reported (this : Engine) (p : string) :
  existsSync (resolve p) = false ->
  (forall k w,
      fst (processFile p k w) = Ok (notFound p, k) /\
      filePath (notFound p) = p /\
      exists m,
        messages (notFound p) = [m] /\ fatal m = true /\
        contains (resolve p) (message m)) /\
  (forall files exclusions,
      extname p = ".js" ->
      ignore (options this) = false \/
      matchAny (normalized p) exclusions = Ok false ->
      forall rest acc k w,
      exists w1,
        foldM (callback this files exclusions) (p :: rest) (acc, k) w
        = foldM (callback this files exclusions) rest
                ((acc ++ [notFound p])%list, k) w1) /\
  (forall files k0 k1 exclusions w w' report,
      extname p = ".js" ->
      ignore (options this) = false \/
      matchAny (normalized p) exclusions = Ok false ->
      Config_new (options this) = Ok k0 ->
      getExclusions k0 = Ok (exclusions, k1) ->
      executeOnFiles this files w = (Ok report, w') ->
      results_for p (results report)
      = repeat (notFound p) (count_occ string_dec (fst (traverse files)) p)).
Proof.
  intros Hmiss.
  assert (Hjs : extname p = ".js" -> isJs p = true).
  { intros Hext. unfold isJs. now rewrite Hext. }
  split; [|split].
  - intros k w. rewrite processFile_missing by exact Hmiss.
    split; [reflexivity|]. split; [reflexivity|].
    eexists. split; [reflexivity|]. split; [reflexivity|].
    cbn [message]. apply contains_middle.
  - intros files exclusions Hext Hproc rest acc k w.
    destruct (callback_missing this files exclusions acc k p w
                Hmiss (Hjs Hext) Hproc) as [w1 Hw1].
    exists w1. cbn [foldM]. unfold bind at 1. now rewrite Hw1.
  - intros files k0 k1 exclusions w w' report Hext Hproc Hcfg Hexcl.
    rewrite executeOnFiles_run, Hcfg, Hexcl.
    destruct (foldM _ _ ([], k1) w) as [[[res k2]|e] w1] eqn:Hfold;
      [|discriminate].
    destruct (snd (traverse files)); [discriminate|].
    intros [= <- _]. cbn [results].
    apply (run_results_for_missing this files exclusions p
             Hmiss (Hjs Hext) Hproc) in Hfold.
    now rewrite Hfold.
Qed.

(** ** The constructor *)

Lemma forEach_load_run (dirs : list string) (w : World) :
  exists lines,
    forEach (fun rulesdir =>
               debug ("Loading rules from " ++ rulesdir) ;;; load_call rulesdir)
            dirs w =
    (fst (loadAll dirs (linter w)),
     {| linter := snd (loadAll dirs (linter w));
        calls := calls w;
        dbg := (dbg w ++ lines)%list |}).
Proof.
  match goal with |- context [forEach ?g] => set (f := g) end.
  revert w. induction dirs as [|d ds IH]; intros w; cbn [forEach loadAll].
  - exists []. destruct w as [s c l]. unfold ret. cbn. now rewrite app_nil_r.
  - unfold bind at 1. unfold f at 1. unfold bind at 1.
    unfold debug, load_call. cbv beta iota. cbn [linter calls dbg].
    destruct (rules_load d (linter w)) as [[[]|e] s'].
    + destruct (IH {| linter := s'; calls := calls w;
                      dbg := (dbg w ++ [("Loading rules from " ++ d)%string])%list |})
        as [lines Hlines].
      exists (("Loading rules from " ++ d)%string :: lines).
      rewrite Hlines. cbn [linter calls dbg fst snd].
      now rewrite <- app_assoc.
    + exists ["Loading rules from " ++ d]. reflexivity.
Qed.

Lemma loadAll_throw (dirs : list string) (s : Linter) (e : Err) :
  fst (loadAll dirs s) = Throw e <->
  exists pre d post s',
    dirs = (pre ++ d :: post)%list /\
    loadAll pre s = (Ok tt, s') /\
    fst (rules_load d s') = Throw e.
Proof.
  revert s. induction dirs as [|d ds IH]; intros s; cbn [loadAll].
  - split; [discriminate|]. intros (pre & d & post & s' & Heq & _).
    now destruct pre.
  - destruct (rules_load d s) as [[[]|e'] s1] eqn:Hd.
    + rewrite IH. split.
      * intros (pre & d' & post & s' & -> & Hpre & Hd').
        exists (d :: pre), d', post, s'. cbn [loadAll app]. rewrite Hd.
        now repeat split.
      * intros (pre & d' & post & s' & Heq & Hpre & Hd').
        destruct pre as [|p pre]; cbn [app] in Heq; injection Heq as -> ->.
        -- cbn in Hpre. injection Hpre as <-. rewrite Hd in Hd'. discriminate.
        -- cbn [loadAll] in Hpre. rewrite Hd in Hpre.
           exists pre, d', post, s'. now repeat split.
    + cbn [fst]. split.
      * intros Heq. exists [], d, ds, s. cbn [loadAll app]. rewrite Hd.
        now repeat split.
      * intros (pre & d' & post & s' & Heq & Hpre & Hd').
        destruct pre as [|p pre]; cbn [app] in Heq; injection Heq as -> ->.
        -- cbn in Hpre. injection Hpre as <-. now rewrite Hd in Hd'.
        -- cbn [loadAll] in Hpre. rewrite Hd in Hpre. discriminate.
Qed.

Lemma CLIEngine_run (opts : option (SuppliedOptions RuleSetting)) (w : World) :
  let dirs := rulePaths (assign defaultOptions opts) in
  exists lines,
    CLIEngine opts w =
    (match fst (loadAll dirs (linter w)) with
     | Ok _ => Ok {| options := assign defaultOptions opts |}
     | Throw e => Throw e
     end,
     {| linter := snd (loadAll dirs (linter w));
        calls := calls w;
        dbg := (dbg w ++ lines)%list |}).
Proof.
  intros dirs. unfold CLIEngine. cbv zeta. fold dirs.
  destruct (forEach_load_run dirs w) as [lines Hrun].
  exists lines. unfold bind at 1. rewrite Hrun.
  now destruct (fst (loadAll dirs (linter w))).
Qed.

(** C9.  The constructor throws exactly when loading one of the rule
    directories throws, the directories before it having loaded, and then
    it throws that error and yields no engine; when it returns, every
    directory has loaded and the engine holds the merged options. *)
Theorem CLIEngine_fails_only_on_rule_loading
  (opts : option (SuppliedOptions RuleSetting)) (w : World) :
  (forall e,
      fst (CLIEngine opts w) = Throw e <->
      exists pre rulesdir post s',
        rulePaths (assign defaultOptions opts) = (pre ++ rulesdir :: post)%list /\
        loadAll pre (linter w) = (Ok tt, s') /\
        fst (rules_load rulesdir s') = Throw e) /\
  (forall this,
      fst (CLIEngine opts w) = Ok this ->
      options this = assign defaultOptions opts /\
      fst (loadAll (rulePaths (assign defaultOptions opts)) (linter w)) = Ok tt).
Proof.
  destruct (CLIEngine_run opts w) as [lines ->]. cbn [fst].
  split.
  - intros e. rewrite <- loadAll_throw.
    destruct (fst (loadAll _ _)) as [[]|e']; split; congruence.
  - intros this.
    destruct (fst (loadAll _ _)) as [[]|e']; [|intros H; discriminate H].
    intros [= <-]. now split.
Qed.

End Facts.

(** C2 on the sample platform, whose matcher compares a pattern without
    [*] character by character. *)
Lemma isExcluded_second_backslash_kept_sample :
  fst (isExcluded ("src" ++ backslash ++ "lib" ++ backslash ++ "x.js")
                  ["src/lib/x.js"] Sample.w0) = Ok false /\
  fst (isExcluded "src/lib/x.js" ["src/lib/x.js"] Sample.w0) = Ok true.
Proof.
  apply (@isExcluded_second_backslash_kept Sample.platform Sample.w0);
    reflexivity.
Defined.

(** C3 does not hold for every matcher: the one of the sample platform,
    like a matcher that compiles a pattern to a regular expression,
    rejects the class [[z-a]], whose range is out of order, and
    [isExcluded] raises instead of answering. *)
Lemma isExcluded_not_total_sample :
  fst (isExcluded "a.js" ["[z-a]"] Sample.w0)
  = Throw "Invalid regular expression: Range out of order in character class" /\
  ~ @isExcluded_total Sample.platform.
Proof.
  split; [reflexivity|].
  intros H. destruct (H "a.js" ["[z-a]"] Sample.w0) as [b Hb].
  discriminate Hb.
Qed.

(** ** The sample platform at work *)

(** C1 does not hold for every path: [notes.txt] is named by the caller
    and matched by the pattern [notes.txt] while [ignore] is on, and the
    run reports nothing for it. *)
Lemma explicit_excluded_claim_fails_sample :
  fst (executeOnFiles Sample.engine ["notes.txt"] Sample.w0)
  = Ok {| results := [] |} /\
  ~ explicit_excluded_claim Sample.engine ["notes.txt"] Sample.exclusions
      "notes.txt".
Proof.
  split; [reflexivity|].
  intros H.
  specialize (H eq_refl (or_introl eq_refl) [] 0 Sample.w0 eq_refl).
  discriminate H.
Qed.

(** C1 on the sample platform: [vendor/c.js] is named by the caller and visited twice,
    once as named and once through the directory [vendor]. *)
Lemma excluded_js_path_reporting_sample :
  fst (executeOnFiles Sample.engine ["a.js"; "vendor/c.js"; "vendor"] Sample.w0)
  = Ok Sample.report_c /\
  @results_for Sample.platform "vendor/c.js" (results Sample.report_c)
  = [ignoredResult "vendor/c.js"; ignoredResult "vendor/c.js"].
Proof.
  split; [reflexivity|].
  apply (proj1 (proj2
    (@excluded_js_path_reporting Sample.platform Sample.engine
       ["a.js"; "vendor/c.js"; "vendor"] "vendor/c.js" 0 0 Sample.exclusions
       Sample.w0 eq_refl eq_refl eq_refl eq_refl eq_refl))
    Sample.report_c
    (snd (executeOnFiles Sample.engine ["a.js"; "vendor/c.js"; "vendor"]
            Sample.w0))).
  - reflexivity.
  - right. left. reflexivity.
Defined.

(** C4 does not hold for every path: there is no file at [gone.js], the
    walker finds nothing there and skips the path, and the run reports
    nothing. *)
Lemma missing_file_claim_fails_sample :
  fst (executeOnFiles Sample.engine ["gone.js"] Sample.w0)
  = Ok {| results := [] |} /\
  ~ missing_file_claim Sample.engine "gone.js".
Proof.
  split; [reflexivity|].
  intros H.
  destruct (H eq_refl eq_refl Sample.w0) as (r & m & Hrun & _).
  discriminate Hrun.
Qed.

(** C4 on the sample platform: there is no file at [gone.js]. *)
Lemma missing_file_reported_sample :
  fst (@processFile Sample.platform "gone.js" 0 Sample.w0)
  = Ok (notFound "gone.js", 0).
Proof.
  exact (proj1 (proj1
    (@missing_file_reported Sample.platform Sample.engine "gone.js" eq_refl)
    0 Sample.w0)).
Defined.

(** C5 on the sample platform, whose [reset] sets the counter of verified
    files back to zero. *)
Lemma executeOnFiles_twice_sample :
  fst (executeOnFiles Sample.engine ["a.js"; "b.js"; "vendor"]
         (snd (executeOnFiles Sample.engine ["a.js"; "b.js"; "vendor"] Sample.w0)))
  = fst (executeOnFiles Sample.engine ["a.js"; "b.js"; "vendor"] Sample.w0).
Proof.
  apply (@executeOnFiles_twice Sample.platform Sample.engine
           ["a.js"; "b.js"; "vendor"] Sample.w0).
  split; intros; reflexivity.
Defined.

(** C7 on the sample platform: [x.JS] and [notes.txt] are visited and not
    reported. *)
Lemma other_extensions_yield_no_result_sample :
  fst (executeOnFiles Sample.engine ["a.js"; "x.JS"; "notes.txt"] Sample.w0)
  = Ok Sample.report_a /\
  ~ In "x.JS" (map filePath (results Sample.report_a)).
Proof.
  split; [reflexivity|].
  apply (@other_extensions_yield_no_result Sample.platform Sample.engine
           ["a.js"; "x.JS"; "notes.txt"] Sample.w0
           (snd (executeOnFiles Sample.engine ["a.js"; "x.JS"; "notes.txt"]
                   Sample.w0))).
  - reflexivity.
  - intros H. discriminate H.
Defined.

(** C8 on the sample platform: with [ignore: false] the excluded [vendor/c.js] is
    processed like any other file. *)
Lemma no_ignore_processes_every_js_sample :
  executeOnFiles Sample.engine_no_ignore ["a.js"; "vendor"; "notes.txt"] Sample.w0
  = executeUnfiltered Sample.engine_no_ignore ["a.js"; "vendor"; "notes.txt"]
      Sample.w0.
Proof.
  exact (proj1
    (@no_ignore_processes_every_js Sample.platform Sample.engine_no_ignore
       eq_refl) ["a.js"; "vendor"; "notes.txt"] Sample.w0).
Defined.

(** C10 on the sample platform: [notes.txt] is named by the caller. *)
Lemma explicit_other_extension_dropped_sample :
  callback Sample.engine ["a.js"; "notes.txt"] Sample.exclusions ([], 0)
    "notes.txt" Sample.w0
  = (Ok ([], 0), logged ["Processing notes.txt"] Sample.w0).
Proof.
  refine (proj1
    (@explicit_other_extension_dropped Sample.platform Sample.engine
       ["a.js"; "notes.txt"] "notes.txt" (or_intror (or_introl eq_refl)) _)
    Sample.exclusions [] 0 Sample.w0).
  intros H. discriminate H.
Defined.

(** * Further properties of the engine *)

Section Further.

Context {P : Platform}.

(** ** More on the exclusion matcher *)

Lemma matchAny_app (n : string) (l1 l2 : list string) :
  matchAny n (l1 ++ l2) =
  match matchAny n l1 with
  | Ok false => matchAny n l2
  | r => r
  end.
Proof.
  induction l1 as [|p ps IH]; cbn [app matchAny]; [reflexivity|].
  now destruct (minimatch n p) as [[|]|e].
Qed.

(** X1.  A path with a single backslash is matched exactly like the same
    path written with a forward slash: same answer, same debug lines. *)
Theorem single_backslash_is_normalized (a b : string) (exclude : list string)
  (w : World) :
  mentions (ascii_of_nat 92) a = false ->
  mentions (ascii_of_nat 92) b = false ->
  isExcluded (a ++ backslash ++ b) exclude w
  = isExcluded (a ++ "/" ++ b) exclude w.
Proof.
  intros Ha Hb. now apply isExcluded_single_backslash.
Qed.

(** X2.  The patterns are tried from left to right: on two lists put one
    after the other, the second list is consulted only when the first one
    answers false.  In particular, a path that a list excludes stays
    excluded whatever patterns are added after it. *)
Theorem isExcluded_append (name : string) (l1 l2 : list string) (w : World) :
  fst (isExcluded name (l1 ++ l2) w) =
  match fst (isExcluded name l1 w) with
  | Ok false => fst (isExcluded name l2 w)
  | r => r
  end.
Proof.
  rewrite !isExcluded_run. cbn [fst]. apply matchAny_app.
Qed.

(** ** More on the file processor *)

(** X5.  [processFile] throws exactly when the file exists and the
    configuration helper, the read of the file or the verification engine
    throws, in this order, with the error of the collaborator. *)
Theorem processFile_throws_iff (filename : string) (k : Helper) (w : World)
  (e : Err) :
  fst (processFile filename k w) = Throw e <->
  existsSync (resolve filename) = true /\
  (getConfig k (resolve filename) = Throw e \/
   exists config k',
     getConfig k (resolve filename) = Ok (config, k') /\
     (readFileSync (resolve filename) = Throw e \/
      exists text,
        readFileSync (resolve filename) = Ok text /\
        fst (eslint_verify (eslint_reset (linter w)) text config filename)
        = Throw e)).
Proof.
  unfold processFile. cbv zeta. run_eff.
  destruct (existsSync (resolve filename)).
  - destruct (getConfig k (resolve filename)) as [[c k1]|e1].
    + destruct (readFileSync (resolve filename)) as [text|e2].
      * destruct (eslint_verify _ text c filename) as [[msgs|e3] s] eqn:Hv;
          cbn [linter] in Hv; cbn [fst].
        -- split; [discriminate|].
           intros (_ & [Hc | (c' & k' & [= <- <-] & [Hr | (t & [= <-] & Ht)])]);
             try discriminate.
           rewrite Hv in Ht. discriminate.
        -- split.
           ++ intros [= <-]. split; [reflexivity|]. right.
              exists c, k1. split; [reflexivity|]. right.
              exists text. split; [reflexivity|]. now rewrite Hv.
           ++ intros (_ & [Hc | (c' & k' & [= <- <-] & [Hr | (t & [= <-] & Ht)])]);
                try discriminate.
              rewrite Hv in Ht. cbn [fst] in Ht. congruence.
      * cbn [fst]. split.
        -- intros [= <-]. split; [reflexivity|]. right.
           exists c, k1. split; [reflexivity|]. now left.
        -- intros (_ & [Hc | (c' & k' & [= <- <-] & [Hr | (t & Ht & _)])]);
             try discriminate.
           congruence.
    + cbn [fst]. split.
      * intros [= <-]. split; [reflexivity|]. now left.
      * intros (_ & [Hc | (c' & k' & Hc & _)]); try discriminate.
        congruence.
  - cbn [fst]. split; [discriminate|]. intros [Habs _]. discriminate.
Qed.

(** What a call of [processFile] that returns adds to the history. *)
Lemma processFile_ok_calls (filename : string) (k k' : Helper) (w w' : World)
  (r : LintResult Detail) :
  processFile filename k w = (Ok (r, k'), w') ->
  calls w' =
  (calls w ++
   CReset (eslint_reset (linter w)) ::
   if existsSync (resolve filename)
   then [CVerify (eslint_reset (linter w)) filename] else [])%list.
Proof.
  unfold processFile. cbv zeta. run_eff.
  destruct (existsSync (resolve filename)).
  - destruct (getConfig k (resolve filename)) as [[c k1]|e1]; [|discriminate].
    destruct (readFileSync (resolve filename)) as [text|e2]; [|discriminate].
    destruct (eslint_verify _ text c filename) as [[msgs|e3] s]; [|discriminate].
    intros [= _ _ <-]. cbn [calls]. now rewrite <- app_assoc.
  - now intros [= _ _ <-].
Qed.

(** ** More on the run *)

Lemma foldM_app {A St} (f : St -> A -> Eff St) (l1 l2 : list A) (st : St)
  (w : World) :
  foldM f (l1 ++ l2) st w =
  match foldM f l1 st w with
  | (Ok st', w') => foldM f l2 st' w'
  | (Throw e, w') => (Throw e, w')
  end.
Proof.
  revert st w. induction l1 as [|x xs IH]; intros st w; cbn [app foldM].
  - reflexivity.
  - unfold bind. destruct (f st x w) as [[st1|e] w1]; [apply IH | reflexivity].
Qed.

Lemma lintUnfiltered_run (acc : list (LintResult Detail)) (k : Helper)
  (filename : string) (w : World) :
  lintUnfiltered (acc, k) filename w =
  if isJs filename
  then pushProcessed acc filename k (logged ["Processing " ++ filename] w)
  else (Ok (acc, k), logged ["Processing " ++ filename] w).
Proof.
  unfold lintUnfiltered, isJs. unfold bind at 1. rewrite debug_run.
  destruct (String.eqb (extname filename) ".js"); reflexivity.
Qed.

Lemma executeUnfiltered_run (this : Engine) (files : list string) (w : World) :
  executeUnfiltered this files w =
  match Config_new (options this) with
  | Throw e => (Throw e, w)
  | Ok k0 =>
      match getExclusions k0 with
      | Throw e => (Throw e, w)
      | Ok (_, k1) =>
          match foldM lintUnfiltered (fst (traverse files)) ([], k1) w with
          | (Throw e, w') => (Throw e, w')
          | (Ok (results, _), w') =>
              match snd (traverse files) with
              | None => (Ok {| results := results |}, w')
              | Some e => (Throw e, w')
              end
          end
      end
  end.
Proof.
  unfold executeUnfiltered, traverse_call. run_eff.
  destruct (Config_new (options this)) as [k0|e]; [|reflexivity].
  destruct (getExclusions k0) as [[exclusions k1]|e]; [|reflexivity].
  destruct (traverse files) as [visited failure]. cbn [fst snd].
  destruct (foldM _ visited ([], k1) w) as [[[res k2]|e] w'];
    [|reflexivity].
  now destruct failure.
Qed.

(** What a visit that returns adds to the paths of the results. *)
Lemma callback_path (this : Engine) (files exclusions : list string)
  (acc acc' : list (LintResult Detail)) (k k' : Helper) (x : string)
  (w w' : World) :
  callback this files exclusions (acc, k) x w = (Ok (acc', k'), w') ->
  map filePath acc' =
  (map filePath acc ++ if reported this files exclusions x then [x] else [])%list.
Proof.
  rewrite callback_run. cbv zeta. unfold reported.
  assert (Hpush : forall w0,
             pushProcessed acc x k w0 = (Ok (acc', k'), w') ->
             map filePath acc' = (map filePath acc ++ [x])%list).
  { intros w0. rewrite pushProcessed_run.
    destruct (processFile x k w0) as [[[r k1]|e] w1] eqn:Hp; [|discriminate].
    intros [= <- _ _]. rewrite map_app. cbn [map].
    now rewrite (processFile_filePath _ _ _ Hp). }
  destruct (isJs x); cbn [andb]; [|intros [= <- _ _]; now rewrite app_nil_r].
  destruct (ignore (options this)); cbn [negb orb]; [|apply Hpush].
  destruct (matchAny (normalized x) exclusions) as [[|]|e];
    [|apply Hpush|discriminate].
  destruct (-1 <? indexOf files x)%Z; intros [= <- _ _].
  - now rewrite map_app.
  - now rewrite app_nil_r.
Qed.

Lemma run_paths (this : Engine) (files exclusions : list string) :
  forall visited acc k w acc' k' w',
    foldM (callback this files exclusions) visited (acc, k) w
    = (Ok (acc', k'), w') ->
    map filePath acc' =
    (map filePath acc ++ filter (reported this files exclusions) visited)%list.
Proof.
  induction visited as [|x xs IH]; intros acc k w acc' k' w'; cbn [foldM filter].
  - unfold ret. intros [= <- _ _]. now rewrite app_nil_r.
  - unfold bind.
    destruct (callback this files exclusions (acc, k) x w)
      as [[[acc1 k1]|e] w1] eqn:Hx; [|discriminate].
    intros Hrest. apply IH in Hrest. rewrite Hrest.
    apply callback_path in Hx. rewrite Hx, <- app_assoc.
    now destruct (reported this files exclusions x).
Qed.

(** X3.  The report of a run lists, in the order of the visit, one result
    for each visit of a path with the [.js] extension that is processed or
    that is excluded and was named by the caller, and nothing else. *)
Theorem report_follows_visit_order (this : Engine) (files : list string)
  (k0 k1 : Helper) (exclusions : list string) (w w' : World)
  (report : RunReport Detail) :
  Config_new (options this) = Ok k0 ->
  getExclusions k0 = Ok (exclusions, k1) ->
  executeOnFiles this files w = (Ok report, w') ->
  map filePath (results report)
  = filter (reported this files exclusions) (fst (traverse files)).
Proof.
  intros Hcfg Hexcl. rewrite executeOnFiles_run, Hcfg, Hexcl.
  destruct (foldM _ _ ([], k1) w) as [[[res k2]|e] w1] eqn:Hfold;
    [|discriminate].
  destruct (snd (traverse files)); [discriminate|].
  intros [= <- _]. cbn [results].
  now apply run_paths in Hfold.
Qed.

(** X4.  When the walk ends without error and visits no path with the
    [.js] extension (no path at all, for one), the run returns the empty
    report and leaves the linter and the history of engine calls as they
    were. *)
Theorem nothing_to_lint (this : Engine) (files : list string)
  (k0 k1 : Helper) (exclusions : list string) (w : World) :
  Config_new (options this) = Ok k0 ->
  getExclusions k0 = Ok (exclusions, k1) ->
  forallb (fun f => negb (isJs f)) (fst (traverse files)) = true ->
  snd (traverse files) = None ->
  fst (executeOnFiles this files w) = Ok {| results := [] |} /\
  linter (snd (executeOnFiles this files w)) = linter w /\
  calls (snd (executeOnFiles this files w)) = calls w.
Proof.
  intros Hcfg Hexcl Hnone Hend.
  rewrite executeOnFiles_run, Hcfg, Hexcl, Hend.
  assert (Hfold : forall visited w0,
             forallb (fun f => negb (isJs f)) visited = true ->
             exists lines,
               foldM (callback this files exclusions) visited ([], k1) w0
               = (Ok ([], k1), logged lines w0)).
  { induction visited as [|x xs IH]; intros w0 Hall; cbn [foldM].
    - exists []. now rewrite logged_nil.
    - cbn [forallb] in Hall. apply andb_true_iff in Hall as [Hx Hxs].
      apply negb_true_iff in Hx.
      unfold bind. rewrite callback_run. cbv zeta. rewrite Hx.
      destruct (IH (logged ["Processing " ++ x] w0) Hxs) as [lines ->].
      eexists. now rewrite logged_app. }
  destruct (Hfold _ w Hnone) as [lines ->]. now cbn.
Qed.

(** X6.  The first visit that throws ends the run: [executeOnFiles] throws
    the same error, no report is returned, and the world is left as the
    failing visit left it, the paths after it not being visited. *)
Theorem throwing_visit_aborts_run (this : Engine) (files : list string)
  (k0 k1 : Helper) (exclusions pre post : list string) (x : string)
  (st : list (LintResult Detail) * Helper) (w w1 : World) (e : Err) :
  Config_new (options this) = Ok k0 ->
  getExclusions k0 = Ok (exclusions, k1) ->
  fst (traverse files) = (pre ++ x :: post)%list ->
  foldM (callback this files exclusions) pre ([], k1) w = (Ok st, w1) ->
  fst (callback this files exclusions st x w1) = Throw e ->
  fst (executeOnFiles this files w) = Throw e /\
  snd (executeOnFiles this files w)
  = snd (callback this files exclusions st x w1).
Proof.
  intros Hcfg Hexcl Hwalk Hpre Hx.
  rewrite executeOnFiles_run, Hcfg, Hexcl, Hwalk, foldM_app, Hpre.
  cbn [foldM]. unfold bind.
  destruct (callback this files exclusions st x w1) as [[st2|e2] w2];
    cbn [fst snd] in *; [discriminate|].
  injection Hx as ->. now split.
Qed.

(** ** More on the history of engine calls *)

Lemma verifiedNames_app (a b : list EngineCall) :
  verifiedNames (a ++ b) = (verifiedNames a ++ verifiedNames b)%list.
Proof.
  induction a as [|[s|s f] a IH]; cbn [app verifiedNames]; [reflexivity|exact IH|].
  now rewrite IH.
Qed.

Lemma resetCount_app (a b : list EngineCall) :
  resetCount (a ++ b) = resetCount a + resetCount b.
Proof.
  induction a as [|[s|s f] a IH]; cbn [app resetCount]; [reflexivity| |exact IH].
  now rewrite IH.
Qed.

(** What a visit that returns adds to the history. *)
Lemma callback_ok_calls (this : Engine) (files exclusions : list string)
  (st st' : list (LintResult Detail) * Helper) (x : string) (w w' : World) :
  callback this files exclusions st x w = (Ok st', w') ->
  calls w' =
  (calls w ++
   if processed this exclusions x
   then CReset (eslint_reset (linter w)) ::
        if existsSync (resolve x)
        then [CVerify (eslint_reset (linter w)) x] else []
   else [])%list.
Proof.
  destruct st as [acc k]. rewrite callback_run. cbv zeta. unfold processed.
  assert (Hpush : forall lines,
             pushProcessed acc x k (logged lines w) = (Ok st', w') ->
             calls w' =
             (calls w ++
              CReset (eslint_reset (linter w)) ::
              if existsSync (resolve x)
              then [CVerify (eslint_reset (linter w)) x] else [])%list).
  { intros lines. rewrite pushProcessed_run.
    destruct (processFile x k (logged lines w)) as [[[r k1]|e] w1] eqn:Hp;
      [|discriminate].
    intros [= _ <-]. now apply processFile_ok_calls in Hp. }
  destruct (isJs x); cbn [andb];
    [|intros [= _ <-]; cbn [logged calls]; now rewrite app_nil_r].
  destruct (ignore (options this)); cbn [negb orb]; [|apply Hpush].
  destruct (matchAny (normalized x) exclusions) as [[|]|e]; [| |discriminate].
  - destruct (-1 <? indexOf files x)%Z; intros [= _ <-]; cbn [logged calls];
      now rewrite app_nil_r.
  - rewrite logged_app. apply Hpush.
Qed.

Lemma run_engine_calls (this : Engine) (files exclusions : list string) :
  forall visited st w st' w',
    foldM (callback this files exclusions) visited st w = (Ok st', w') ->
    exists evs,
      calls w' = (calls w ++ evs)%list /\
      verifiedNames evs
      = filter (fun f => processed this exclusions f && existsSync (resolve f))
               visited /\
      resetCount evs = length (filter (processed this exclusions) visited).
Proof.
  induction visited as [|x xs IH]; intros st w st' w'; cbn [foldM filter].
  - unfold ret. intros [= _ <-]. exists []. now rewrite app_nil_r.
  - unfold bind.
    destruct (callback this files exclusions st x w) as [[st1|e] w1] eqn:Hx;
      [|discriminate].
    intros Hrest. apply IH in Hrest as (evs & Hevs & Hnames & Hcount).
    apply callback_ok_calls in Hx. rewrite Hx, <- app_assoc in Hevs.
    eexists. split; [exact Hevs|].
    rewrite verifiedNames_app, resetCount_app, Hnames, Hcount.
    destruct (processed this exclusions x); cbn [andb]; [|now split].
    destruct (existsSync (resolve x)); now split.
Qed.

(** X8.  In a run that returns, [reset] is called once for each visit of a
    processed path, and [verify] is called, in the order of the visit, for
    exactly the processed paths at which a file exists: a missing file
    never reaches the verification engine. *)
Theorem engine_calls_of_a_run (this : Engine) (files : list string)
  (k0 k1 : Helper) (exclusions : list string) (w w' : World)
  (report : RunReport Detail) (evs : list EngineCall) :
  Config_new (options this) = Ok k0 ->
  getExclusions k0 = Ok (exclusions, k1) ->
  executeOnFiles this files w = (Ok report, w') ->
  calls w' = (calls w ++ evs)%list ->
  verifiedNames evs
  = filter (fun f => processed this exclusions f && existsSync (resolve f))
           (fst (traverse files)) /\
  resetCount evs
  = length (filter (processed this exclusions) (fst (traverse files))).
Proof.
  intros Hcfg Hexcl. rewrite executeOnFiles_run, Hcfg, Hexcl.
  destruct (foldM _ _ ([], k1) w) as [[[res k2]|e] w1] eqn:Hfold;
    [|discriminate].
  destruct (snd (traverse files)); [discriminate|].
  intros [= _ <-] Hcalls.
  apply run_engine_calls in Hfold as (evs0 & Hevs0 & Hnames & Hcount).
  rewrite Hevs0 in Hcalls. apply app_inv_head in Hcalls. subst evs0.
  now split.
Qed.

(** ** Runs without exclusion patterns *)

(** X9.  When the configuration helper hands out no exclusion pattern,
    the run is the same with [ignore] on or off: it is the run that never
    consults the patterns, with the same outcome and the same world. *)
Theorem no_pattern_no_filtering (this : Engine) (files : list string)
  (k0 k1 : Helper) (w : World) :
  Config_new (options this) = Ok k0 ->
  getExclusions k0 = Ok ([], k1) ->
  executeOnFiles this files w = executeUnfiltered this files w.
Proof.
  intros Hcfg Hexcl.
  rewrite executeOnFiles_run, executeUnfiltered_run, Hcfg, Hexcl.
  rewrite (foldM_ext (callback this files []) lintUnfiltered); [reflexivity|].
  intros [acc k] x w0. rewrite callback_run, lintUnfiltered_run. cbv zeta.
  destruct (isJs x); [|reflexivity].
  destruct (ignore (options this)); [|reflexivity].
  cbn [matchAny matchLog]. now rewrite logged_nil.
Qed.

(** ** More on the constructor *)

Lemma loadAll_stops (pre post : list string) (rulesdir : string)
  (s s1 s2 : Linter) (e : Err) :
  loadAll pre s = (Ok tt, s1) ->
  rules_load rulesdir s1 = (Throw e, s2) ->
  loadAll (pre ++ rulesdir :: post) s = (Throw e, s2).
Proof.
  revert s. induction pre as [|d ds IH]; intros s; cbn [app loadAll].
  - intros [= ->] ->. reflexivity.
  - destruct (rules_load d s) as [[[]|e'] s']; [|discriminate].
    apply IH.
Qed.

(** X7.  When loading a rule directory throws, the constructor throws and
    nothing is undone: the directories before the failing one stay loaded
    in the process-wide state, the ones after it are never loaded, and the
    verification engine is not called. *)
Theorem failed_construction_keeps_loaded_rules
  (opts : option (SuppliedOptions RuleSetting)) (w : World)
  (pre post : list string) (rulesdir : string) (s1 s2 : Linter) (e : Err) :
  rulePaths (assign defaultOptions opts) = (pre ++ rulesdir :: post)%list ->
  loadAll pre (linter w) = (Ok tt, s1) ->
  rules_load rulesdir s1 = (Throw e, s2) ->
  fst (CLIEngine opts w) = Throw e /\
  linter (snd (CLIEngine opts w)) = s2 /\
  calls (snd (CLIEngine opts w)) = calls w.
Proof.
  intros Hdirs Hpre Hfail.
  destruct (CLIEngine_run opts w) as [lines ->]. cbn [fst snd linter calls].
  rewrite Hdirs, (loadAll_stops pre post rulesdir _ Hpre Hfail).
  now cbn.
Qed.

End Further.

(** ** The further properties on the sample platform *)

(** X1 on the sample platform. *)
Lemma single_backslash_is_normalized_sample :
  isExcluded ("src" ++ backslash ++ "x.js") ["src/*"] Sample.w0
  = isExcluded "src/x.js" ["src/*"] Sample.w0.
Proof.
  exact (@single_backslash_is_normalized Sample.platform "src" "x.js"
           ["src/*"] Sample.w0 eq_refl eq_refl).
Defined.

(** X3 on the sample platform: [vendor/c.js] is reported for both of its
    visits, after [a.js]. *)
Lemma report_follows_visit_order_sample :
  fst (executeOnFiles Sample.engine ["a.js"; "vendor/c.js"; "vendor"] Sample.w0)
  = Ok Sample.report_c /\
  map filePath (results Sample.report_c)
  = ["a.js"; "vendor/c.js"; "vendor/c.js"].
Proof.
  split; [vm_compute; reflexivity|].
  pose proof (@report_follows_visit_order Sample.platform Sample.engine
           ["a.js"; "vendor/c.js"; "vendor"] 0 0 Sample.exclusions Sample.w0
           (snd (executeOnFiles Sample.engine ["a.js"; "vendor/c.js"; "vendor"]
                   Sample.w0))
           Sample.report_c) as H.
  assert (H1 : Config_new (options Sample.engine) = Ok 0) by reflexivity.
  assert (H2 : @getExclusions Sample.platform 0 = Ok (Sample.exclusions, 0))
    by reflexivity.
  specialize (H H1 H2). clear H1 H2.
  vm_compute in H. vm_compute. apply H; reflexivity.
Defined.

(** X4 on the sample platform: neither [notes.txt] nor [x.JS] has the
    extension. *)
Lemma nothing_to_lint_sample :
  fst (executeOnFiles Sample.engine ["notes.txt"; "x.JS"] Sample.w0)
  = Ok {| results := [] |} /\
  linter (snd (executeOnFiles Sample.engine ["notes.txt"; "x.JS"] Sample.w0))
  = linter Sample.w0 /\
  calls (snd (executeOnFiles Sample.engine ["notes.txt"; "x.JS"] Sample.w0))
  = calls Sample.w0.
Proof.
  exact (@nothing_to_lint Sample.platform Sample.engine ["notes.txt"; "x.JS"]
           0 0 Sample.exclusions Sample.w0 eq_refl eq_refl eq_refl eq_refl).
Defined.

(** X6 where [b.js] cannot be read: the run ends there, and the directory
    [vendor] is not walked. *)
Lemma throwing_visit_aborts_run_sample :
  fst (executeOnFiles (@Build_Engine Sample.locked defaultOptions)
         ["a.js"; "b.js"; "vendor"]
         (@Build_World Sample.locked ([], 7) [] []))
  = Throw "EACCES /work/b.js".
Proof.
  refine (proj1
    (@throwing_visit_aborts_run Sample.locked
       (@Build_Engine Sample.locked defaultOptions)
       ["a.js"; "b.js"; "vendor"] 0 0 Sample.exclusions ["a.js"]
       ["vendor/c.js"] "b.js"
       ([ {| filePath := "a.js"; messages := [] |} ], 1)
       (@Build_World Sample.locked ([], 7) [] [])
       (snd (foldM (callback (@Build_Engine Sample.locked defaultOptions)
                      ["a.js"; "b.js"; "vendor"] Sample.exclusions)
               ["a.js"] ([], 0) (@Build_World Sample.locked ([], 7) [] [])))
       "EACCES /work/b.js" eq_refl eq_refl eq_refl eq_refl eq_refl)).
Defined.

(** X7 on the sample platform: the directory [rules] stays loaded after
    the construction failed on [missing]. *)
Lemma failed_construction_keeps_loaded_rules_sample :
  fst (@CLIEngine Sample.platform (Some Sample.three_rule_dirs) Sample.w0)
  = Throw "ENOENT missing" /\
  linter (snd (@CLIEngine Sample.platform (Some Sample.three_rule_dirs) Sample.w0))
  = (["rules"], 7) /\
  calls (snd (@CLIEngine Sample.platform (Some Sample.three_rule_dirs) Sample.w0))
  = calls Sample.w0.
Proof.
  exact (@failed_construction_keeps_loaded_rules Sample.platform
           (Some Sample.three_rule_dirs) Sample.w0 ["rules"] ["rules"]
           "missing" (["rules"], 7) (["rules"], 7) "ENOENT missing"
           eq_refl eq_refl eq_refl).
Defined.

(** X8 on the sample platform: [a.js] is processed and verified,
    [vendor/c.js] and [notes.txt] are not processed. *)
Lemma engine_calls_of_a_run_sample :
  verifiedNames
    (calls (snd (executeOnFiles Sample.engine
                   ["a.js"; "vendor/c.js"; "notes.txt"] Sample.w0)))
  = ["a.js"] /\
  resetCount
    (calls (snd (executeOnFiles Sample.engine
                   ["a.js"; "vendor/c.js"; "notes.txt"] Sample.w0)))
  = 1.
Proof.
  pose proof (@engine_calls_of_a_run Sample.platform Sample.engine
           ["a.js"; "vendor/c.js"; "notes.txt"] 0 0
           Sample.exclusions Sample.w0
           (snd (executeOnFiles Sample.engine
                   ["a.js"; "vendor/c.js"; "notes.txt"] Sample.w0))
           {| results := [ {| filePath := "a.js"; messages := [] |};
                           ignoredResult "vendor/c.js" ] |}
           (calls (snd (executeOnFiles Sample.engine
                          ["a.js"; "vendor/c.js"; "notes.txt"]
                          Sample.w0)))) as H.
  assert (H1 : Config_new (options Sample.engine) = Ok 0) by reflexivity.
  assert (H2 : @getExclusions Sample.platform 0 = Ok (Sample.exclusions, 0))
    by reflexivity.
  specialize (H H1 H2). clear H1 H2.
  vm_compute in H. vm_compute. apply H; reflexivity.
Defined.

(** X9 where there is no ignore file: the default engine, with [ignore]
    on, runs like one that never filters. *)
Lemma no_pattern_no_filtering_sample :
  executeOnFiles (@Build_Engine Sample.bare defaultOptions) ["a.js"; "vendor"]
    (@Build_World Sample.bare ([], 7) [] [])
  = executeUnfiltered (@Build_Engine Sample.bare defaultOptions)
      ["a.js"; "vendor"] (@Build_World Sample.bare ([], 7) [] []).
Proof.
  exact (@no_pattern_no_filtering Sample.bare
           (@Build_Engine Sample.bare defaultOptions) ["a.js"; "vendor"] 0 0
           (@Build_World Sample.bare ([], 7) [] []) eq_refl eq_refl).
Defined.
